(** * A shallow embedding of [generate_align.py] (MoNMT)

    The script [generate_align.py] drives a fairseq model over a dataset
    split and, on request, buffers per-sentence soft alignments by sample
    id and writes them to one text file.  The fairseq framework (task,
    dictionaries, model ensemble, batch iterator, the two alignment
    extractors) is consumed as an opaque service: it is a record of data
    and functions, [framework], passed to [main].

    Python effects are modelled by a state-and-exception monad [PyM]: the
    state holds the trace of observable actions (prints, dataset and model
    loading, device transfers, extractor calls, file opens), the file
    system, and the local variables of [main] that the claims are about. *)

From Stdlib Require Import ZArith List String Ascii Lia Sorted.
From stdpp Require Import base gmap strings list.

Open Scope Z_scope.

(* ------------------------------------------------------------------ *)
(** ** Python primitives *)

(** Python's [needle in hay] on two [str] values: substring search.
    The empty string is in every string. *)
Fixpoint py_str_in (needle hay : string) : bool :=
  String.prefix needle hay ||
  match hay with
  | EmptyString => false
  | String _ hay' => py_str_in needle hay'
  end.

(** Python list indexing [l[i]] on a list of length [len]: negative
    indices count from the end, anything else raises [IndexError]
    (here: [None]). *)
Definition py_index (len i : Z) : option Z :=
  if (0 <=? i) && (i <? len) then Some i
  else if (- len <=? i) && (i <? 0) then Some (i + len)
  else None.

(** [posixpath.join(a, b)] for two components. *)
Definition starts_with_slash (s : string) : bool :=
  match s with
  | String c _ => Ascii.eqb c "/"%char
  | EmptyString => false
  end.

Definition ends_with_slash (s : string) : bool :=
  match String.get (String.length s - 1) s with
  | Some c => negb (String.eqb s "") && Ascii.eqb c "/"%char
  | None => false
  end.

Definition os_path_join (a b : string) : string :=
  if starts_with_slash b then b
  else if String.eqb a "" || ends_with_slash a then (a ++ b)%string
  else (a ++ "/" ++ b)%string.

Definition newline : string := String "010"%char EmptyString.

(** [str(x)] for an optional string attribute in an f-string. *)
Definition py_fstr_opt (o : option string) : string :=
  match o with Some s => s | None => "None" end.

(** [string.punctuation]: the 32 ASCII punctuation characters, codes
    33-47, 58-64, 91-96 and 123-126, in this order (the double quote, code
    34, among them). *)
Definition string_of_codes (l : list nat) : string :=
  fold_right (fun n s => String (ascii_of_nat n) s) EmptyString l.

Definition punctuation : string :=
  string_of_codes (List.seq 33 15 ++ List.seq 58 7 ++ List.seq 91 6 ++ List.seq 123 4).

(* ------------------------------------------------------------------ *)
(** ** Vocabularies and the punctuation-token ids (lines 84-90) *)

(** A fairseq [Dictionary] seen through [len(d)] and [d[w]] for
    [w in range(len(d))]: its list of symbols. *)
Definition dictionary := list string.

Definition dict_get (d : dictionary) (w : nat) : string :=
  nth w d "<unk>"%string.

(** [[w for w in range(len(d)) if d[w] in punc]] *)
Definition punc_tokens_of (d : dictionary) (punc : string) : list nat :=
  List.filter (fun w => py_str_in (dict_get d w) punc) (List.seq 0 (length d)).

(* ------------------------------------------------------------------ *)
(** ** Configuration ([args]) and the framework *)

(** The fields of the parsed [args] namespace that [main] reads. *)
Record args := mk_args {
  path : option string;
  sampling : bool;
  nbest : Z;
  beam : Z;
  replace_unk : option string;
  raw_text : bool;
  max_tokens : option Z;
  max_sentences : option Z;
  cpu : bool;
  gen_subset : string;
  source_lang : option string;
  target_lang : option string;
  print_vanilla_alignment : bool;
  decoding_path : option string;
  alignment_task : string;
  alignment_layer : Z;
  set_shift : bool
}.

(** [args.max_tokens = v]: the namespace with that one attribute replaced. *)
Definition with_max_tokens (a : args) (v : option Z) : args :=
  {| path := path a; sampling := sampling a; nbest := nbest a;
     beam := beam a; replace_unk := replace_unk a; raw_text := raw_text a;
     max_tokens := v; max_sentences := max_sentences a;
     cpu := cpu a; gen_subset := gen_subset a;
     source_lang := source_lang a; target_lang := target_lang a;
     print_vanilla_alignment := print_vanilla_alignment a;
     decoding_path := decoding_path a; alignment_task := alignment_task a;
     alignment_layer := alignment_layer a; set_shift := set_shift a |}.

(** Lines 26-27: [if args.max_tokens is None and args.max_sentences is
    None: args.max_tokens = 12000]. *)
Definition fill_defaults (a : args) : args :=
  match max_tokens a, max_sentences a with
  | None, None => with_max_tokens a (Some 12000)
  | _, _ => a
  end.

(** A batch: whether the dict has a ['net_input'] key, and [sample['id']]. *)
Record sample := mk_sample {
  has_net_input : bool;
  sample_ids : list Z
}.

(** The fairseq side.  [R] is the type of one alignment result.  Both
    extractors take (sample, model, src punctuation ids, alignment layer,
    tgt punctuation ids, alignment task) and return the object indexed by
    [alignments[int(sample_id)]] ([None]: [KeyError]); the model argument
    is always [models[0]] and is left implicit. *)
Record framework (R : Type) := mk_framework {
  cuda_available : bool;
  source_dictionary : option dictionary;
  target_dictionary : dictionary;
  batches : list sample;
  extract_soft_alignment_2 :
    sample -> option (list nat) -> Z -> option (list nat) -> string -> Z -> option R;
  extract_soft_alignment_2_noshift :
    sample -> option (list nat) -> Z -> option (list nat) -> string -> Z -> option R;
  py_str : R -> string
}.
Arguments mk_framework {R}.
Arguments cuda_available {R}.
Arguments source_dictionary {R}.
Arguments target_dictionary {R}.
Arguments batches {R}.
Arguments extract_soft_alignment_2 {R}.
Arguments extract_soft_alignment_2_noshift {R}.
Arguments py_str {R}.

(* ------------------------------------------------------------------ *)
(** ** State, exceptions and the [PyM] monad *)

Inductive exn :=
| AssertionError (msg : string)
| IndexError
| KeyError (k : Z)
| TypeError (msg : string)
| UnboundLocalError (var : string).

(** Observable actions of [main], in the order they happen. *)
Inductive event :=
| EvImportUserModule
| EvPrintArgs (a : args)
| EvLoadDataset (split : string)
| EvLoadEnsemble (paths : string)
| EvGetBatchIterator (max_tokens : option Z)
| EvPrintStartTime
| EvMoveToCuda
| EvExtract (shifted : bool)
| EvPrintEndTime
| EvOpenWrite (file : string)
| EvPrintFinished.

(** [align_sents = [[] for _ in range(cap)]]: a Python list of [buf_len]
    lists, stored sparsely; a slot absent from [buf_slots] is [[]]. *)
Record buffer (R : Type) := mk_buffer {
  buf_len : Z;
  buf_slots : gmap Z (list R)
}.
Arguments mk_buffer {R}.
Arguments buf_len {R}.
Arguments buf_slots {R}.

Definition slot {R} (b : buffer R) (i : Z) : list R :=
  default [] (buf_slots b !! i).

(** A local variable: [None] while unbound, [Some v] once assigned. *)
Record state (R : Type) := mk_state {
  trace : list event;
  files : gmap string string;
  src_punc_tokens : option (option (list nat));
  tgt_punc_tokens : option (option (list nat));
  align_sents : option (buffer R)
}.
Arguments mk_state {R}.
Arguments trace {R}.
Arguments files {R}.
Arguments src_punc_tokens {R}.
Arguments tgt_punc_tokens {R}.
Arguments align_sents {R}.

Definition init_state {R} : state R := mk_state [] ∅ None None None.

(** A statement runs on the state and either returns or raises; the state
    reached at the raise is kept (an uncaught exception ends the process
    there). *)
Definition PyM (R A : Type) : Type := state R -> state R * (exn + A).

Global Instance PyM_ret {R} : MRet (PyM R) := fun A x st => (st, inr x).
Global Instance PyM_bind {R} : MBind (PyM R) := fun A B k m st =>
  match m st with
  | (st', inl e) => (st', inl e)
  | (st', inr x) => k x st'
  end.

Definition raise {R A} (e : exn) : PyM R A := fun st => (st, inl e).

Definition py_assert {R} (b : bool) (msg : string) : PyM R unit :=
  if b then mret tt else raise (AssertionError msg).

Definition emit {R} (ev : event) : PyM R unit := fun st =>
  (mk_state (trace st ++ [ev]) (files st) (src_punc_tokens st)
            (tgt_punc_tokens st) (align_sents st), inr tt).

Definition set_punc_locals {R} (s t : option (option (list nat))) : PyM R unit :=
  fun st => (mk_state (trace st) (files st) s t (align_sents st), inr tt).

Definition set_align_sents {R} (b : buffer R) : PyM R unit := fun st =>
  (mk_state (trace st) (files st) (src_punc_tokens st) (tgt_punc_tokens st)
            (Some b), inr tt).

Definition get_state {R} : PyM R (state R) := fun st => (st, inr st).

(** Reading a local: [UnboundLocalError] if it was never assigned. *)
Definition read_local {R A} (name : string) (v : option A) : PyM R A :=
  match v with Some x => mret x | None => raise (UnboundLocalError name) end.

(** [open(p, 'w')] truncates, [f.write(s)] appends. *)
Definition open_w {R} (p : string) : PyM R unit := fun st =>
  (mk_state (trace st) (<[p := ""%string]> (files st)) (src_punc_tokens st)
            (tgt_punc_tokens st) (align_sents st), inr tt).

Definition f_write {R} (p s : string) : PyM R unit := fun st =>
  (mk_state (trace st) (<[p := (default ""%string (files st !! p) ++ s)%string]> (files st))
            (src_punc_tokens st) (tgt_punc_tokens st) (align_sents st), inr tt).

(* ------------------------------------------------------------------ *)
(** ** [main] *)

Section Main.
Context {R : Type} (fw : framework R).

(** Capacity of [align_sents] (line 96). *)
Definition align_cap : Z := 4000000.

(** Lines 84-90.  [len(src_dict)] with [src_dict = None] raises. *)
Definition compute_punc_tokens (a : args) : PyM R unit :=
  if print_vanilla_alignment a then
    match source_dictionary fw with
    | None => raise (TypeError "object of type 'NoneType' has no len()")
    | Some src_dict =>
        let punc := punctuation in
        set_punc_locals (Some (Some (punc_tokens_of src_dict punc)))
                        (Some (Some (punc_tokens_of (target_dictionary fw) punc)))
    end
  else
    fun st => set_punc_locals (Some None) (tgt_punc_tokens st) st.

(** Line 112 on a buffer: [align_sents[int(sample_id)].append(
    alignments[int(sample_id)])].  The subscript of [align_sents] is
    evaluated before the argument. *)
Definition buffer_append (b : buffer R) (sample_id : Z)
    (alignments : option (Z -> option R)) : exn + buffer R :=
  match py_index (buf_len b) sample_id with
  | None => inl IndexError
  | Some i =>
      match alignments with
      | None => inl (TypeError "'NoneType' object is not subscriptable")
      | Some al =>
          match al sample_id with
          | None => inl (KeyError sample_id)
          | Some r => inr (mk_buffer (buf_len b) (<[i := slot b i ++ [r]]> (buf_slots b)))
          end
      end
  end.

(** Lines 110-112. *)
Fixpoint buffer_ids (a : args) (alignments : option (Z -> option R))
    (ids : list Z) : PyM R unit :=
  match ids with
  | [] => mret tt
  | sample_id :: rest =>
      (if print_vanilla_alignment a && bool_decide (is_Some (decoding_path a)) then
         st ← get_state;
         b ← read_local "align_sents" (align_sents st);
         match buffer_append b sample_id alignments with
         | inl e => raise e
         | inr b' => set_align_sents b'
         end
       else mret tt) ;;
      buffer_ids a alignments rest
  end.

(** Lines 102-108: the alignment extraction of one batch. *)
Definition extract (a : args) (s : sample) : PyM R (option (Z -> option R)) :=
  if print_vanilla_alignment a then
    st ← get_state;
    src_punc ← read_local "src_punc_tokens" (src_punc_tokens st);
    tgt_punc ← read_local "tgt_punc_tokens" (tgt_punc_tokens st);
    if set_shift a then
      emit (EvExtract true) ;;
      mret (Some (extract_soft_alignment_2 fw s src_punc (alignment_layer a)
                    tgt_punc (alignment_task a)))
    else
      emit (EvExtract false) ;;
      mret (Some (extract_soft_alignment_2_noshift fw s src_punc (alignment_layer a)
                    tgt_punc (alignment_task a)))
  else mret None.

(** Lines 99-112: the body of [for sample in t]. *)
Definition process_batch (a : args) (use_cuda : bool) (s : sample) : PyM R unit :=
  (if use_cuda then emit EvMoveToCuda else mret tt) ;;
  if negb (has_net_input s) then mret tt
  else
    alignments ← extract a s;
    buffer_ids a alignments (sample_ids s).

Fixpoint batch_loop (a : args) (use_cuda : bool) (bs : list sample) : PyM R unit :=
  match bs with
  | [] => mret tt
  | s :: rest => process_batch a use_cuda s ;; batch_loop a use_cuda rest
  end.

(** Lines 120-121: [for sent in sents: f.write(str(sent)+'\n')]. *)
Fixpoint write_sents (p : string) (sents : list R) : PyM R unit :=
  match sents with
  | [] => mret tt
  | sent :: rest => f_write p (py_str fw sent ++ newline)%string ;; write_sents p rest
  end.

(** Lines 117-121: [for sents in align_sents], from slot [i] on, [n]
    slots. *)
Fixpoint write_slots (p : string) (b : buffer R) (i : Z) (n : nat) : PyM R unit :=
  match n with
  | O => mret tt
  | S n' =>
      let sents := slot b i in
      (if Nat.eqb (length sents) 0 then mret tt else write_sents p sents) ;;
      write_slots p b (i + 1) n'
  end.

Definition align_file_name (a : args) : string :=
  (gen_subset a ++ "." ++ py_fstr_opt (source_lang a) ++ "2" ++
   py_fstr_opt (target_lang a) ++ ".align")%string.

(** Lines 115-122. *)
Definition write_output (a : args) : PyM R unit :=
  if bool_decide (is_Some (decoding_path a)) && print_vanilla_alignment a then
    let p := os_path_join (default ""%string (decoding_path a)) (align_file_name a) in
    st ← get_state;
    b ← read_local "align_sents" (align_sents st);
    emit (EvOpenWrite p) ;;
    open_w p ;;
    write_slots p b 0 (Z.to_nat (buf_len b)) ;;
    emit EvPrintFinished
  else mret tt.

(** Lines 17-122. *)
Definition main (a0 : args) : PyM R unit :=
  py_assert (bool_decide (is_Some (path a0))) "--path required for generation!" ;;
  py_assert (negb (sampling a0) || Z.eqb (nbest a0) (beam a0))
    "--sampling requires --nbest to be equal to --beam" ;;
  py_assert (bool_decide (replace_unk a0 = None) || raw_text a0)
    "--replace-unk requires a raw text dataset (--raw-text)" ;;
  emit EvImportUserModule ;;
  let a := fill_defaults a0 in
  emit (EvPrintArgs a) ;;
  let use_cuda := cuda_available fw && negb (cpu a) in
  emit (EvLoadDataset (gen_subset a)) ;;
  emit (EvLoadEnsemble (default ""%string (path a))) ;;
  emit (EvGetBatchIterator (max_tokens a)) ;;
  compute_punc_tokens a ;;
  emit EvPrintStartTime ;;
  (if bool_decide (is_Some (decoding_path a))
   then set_align_sents (mk_buffer align_cap ∅) else mret tt) ;;
  batch_loop a use_cuda (batches fw) ;;
  emit EvPrintEndTime ;;
  write_output a.

Definition run_main (a : args) : state R * (exn + unit) := main a init_state.

End Main.

(* ------------------------------------------------------------------ *)
(** ** Spec-side notions the properties are stated with *)

(** A decoded token that is one punctuation character. *)
Definition single_punct (s : string) : bool :=
  Nat.eqb (String.length s) 1 && py_str_in s punctuation.

(* ------------------------------------------------------------------ *)
(** ** Sample inputs *)

(** [generate_align.py --path checkpoint.pt --gen-subset test -s de -t en
    --beam 5 --nbest 1 --alignment-layer 2], with the alignment flags
    given. *)
Definition ex_args (pva : bool) (dp : option string) (shift : bool) : args :=
  mk_args (Some "checkpoint.pt") false 1 5 None false None None false "test"
          (Some "de") (Some "en") pva dp "vanilla" 2 shift.

(** The scenario of the spec: batch 1 holds id 5 (result ["A"]); batch 2
    holds ids 2 and 5 (results ["B"] and ["C"]).  Both extractors answer
    the same; results are their own [str]. *)
Definition ex_extract (s : sample) (_ : option (list nat)) (_ : Z)
    (_ : option (list nat)) (_ : string) (i : Z) : option string :=
  match sample_ids s, i with
  | [5], 5 => Some "A"%string
  | [2; 5], 2 => Some "B"%string
  | [2; 5], 5 => Some "C"%string
  | _, _ => None
  end.

Definition ex_batches : list sample :=
  [mk_sample true [5]; mk_sample false []; mk_sample true [2; 5]].

Definition ex_fw (cuda : bool) (bs : list sample) : framework string :=
  mk_framework cuda (Some ["<s>"; "."; "a"]%string) ["<s>"; ","]%string bs
               ex_extract ex_extract (fun r => r).

(** The run of the scenario with [--print-vanilla-alignment
    --decoding-path out --set-shift], without CUDA. *)
Definition ex_run : state string * (exn + unit) :=
  run_main (ex_fw false ex_batches) (ex_args true (Some "out") true).

(** Device transfers in a trace. *)
Definition is_move_to_cuda (e : event) : bool :=
  match e with EvMoveToCuda => true | _ => false end.

(** The strategies called, in order: [true] for the shifted one. *)
Definition extract_events (tr : list event) : list bool :=
  omap (fun e => match e with EvExtract b => Some b | _ => None end) tr.

(** The alignments object of one batch, given the punctuation locals. *)
Definition batch_alignments {R} (fw : framework R) (a : args)
    (sp tp : option (list nat)) (s : sample) : Z -> option R :=
  if set_shift a
  then extract_soft_alignment_2 fw s sp (alignment_layer a) tp (alignment_task a)
  else extract_soft_alignment_2_noshift fw s sp (alignment_layer a) tp (alignment_task a).

(** The text [f.write] produces for a list of results, one line each. *)
Definition lines_of {R} (str : R -> string) (l : list R) : string :=
  fold_right (fun r acc => (str r ++ newline ++ acc)%string) EmptyString l.

(** The results appended to slot [i] (of a buffer of length [len]) while
    buffering the ids [ids] of one batch, in order. *)
Definition hits {R} (len i : Z) (al : Z -> option R) (ids : list Z) : list R :=
  omap (fun sample_id => if bool_decide (py_index len sample_id = Some i)
                         then al sample_id else None) ids.

(** The results appended to slot [i] over the batches [bs], in order. *)
Definition appended {R} (fw : framework R) (a : args) (sp tp : option (list nat))
    (len i : Z) (bs : list sample) : list R :=
  flat_map (fun s => if has_net_input s
                     then hits len i (batch_alignments fw a sp tp s) (sample_ids s)
                     else []) bs.

(** The state with file [p] holding [c]. *)
Definition set_file {R} (st : state R) (p c : string) : state R :=
  mk_state (trace st) (<[p := c]> (files st)) (src_punc_tokens st)
           (tgt_punc_tokens st) (align_sents st).

(** Frame predicates on statements. *)

(** [keeps f m]: running [m] leaves the component [f] of the state as it
    was, whatever the outcome. *)
Definition keeps {R X A} (f : state R -> X) (m : PyM R A) : Prop :=
  forall st, f (fst (m st)) = f st.

(** [grows m]: [m] only appends to the trace. *)
Definition grows {R A} (m : PyM R A) : Prop :=
  forall st, exists l, trace (fst (m st)) = trace st ++ l.

(** [preserves P m]: a property of the state that holds before [m] holds
    after it, whatever the outcome. *)
Definition preserves {R A} (P : state R -> Prop) (m : PyM R A) : Prop :=
  forall st, P st -> P (fst (m st)).

(** Every extractor call recorded in the trace is the strategy [b]. *)
Definition tagged {R} (b : bool) (st : state R) : Prop :=
  Forall (fun shifted => shifted = b) (extract_events (trace st)).

(** Notions for the properties beyond the claims. *)

(** The three startup assertions of [main] (lines 18-22) all hold. *)
Definition startup_checks_pass (a : args) : bool :=
  bool_decide (is_Some (path a)) && (negb (sampling a) || Z.eqb (nbest a) (beam a)) &&
  (bool_decide (replace_unk a = None) || raw_text a).

(** Every id of [ids] indexes a buffer of length [len] (Python's negative
    indices included) and has a result in the alignment mapping [al]. *)
Definition ids_ok {R} (len : Z) (al : Z -> option R) (ids : list Z) : bool :=
  forallb (fun sample_id =>
             match py_index len sample_id with
             | Some _ => bool_decide (is_Some (al sample_id))
             | None => false
             end) ids.

(** [ids_ok] for every batch with model input. *)
Definition batches_ok {R} (fw : framework R) (a : args) (sp tp : option (list nat))
    (len : Z) (bs : list sample) : bool :=
  forallb (fun s => negb (has_net_input s) ||
                    ids_ok len (batch_alignments fw a sp tp s) (sample_ids s)) bs.

(** The events one iteration of the batch loop records. *)
Definition batch_events (a : args) (use_cuda : bool) (s : sample) : list event :=
  (if use_cuda then [EvMoveToCuda] else []) ++
  (if has_net_input s && print_vanilla_alignment a then [EvExtract (set_shift a)] else []).

(** The events [main] records before the batch loop. *)
Definition startup_events (a : args) : list event :=
  [EvImportUserModule; EvPrintArgs (fill_defaults a); EvLoadDataset (gen_subset a);
   EvLoadEnsemble (default ""%string (path a));
   EvGetBatchIterator (max_tokens (fill_defaults a)); EvPrintStartTime].

(** [m] appends exactly [l] to the trace when it returns normally. *)
Definition appends_on_success {R A} (m : PyM R A) (l : list event) : Prop :=
  forall st st' x, m st = (st', inr x) -> trace st' = trace st ++ l.

(** The number of newline characters in [s]. *)
Fixpoint count_newlines (s : string) : nat :=
  match s with
  | EmptyString => 0
  | String c s' => (if Ascii.eqb c "010"%char then 1 else 0) + count_newlines s'
  end%nat.

(** The buffer, when bound, has 4000000 slots and no key outside them. *)
Definition buffer_in_range {R} (st : state R) : Prop :=
  forall b, align_sents st = Some b ->
    buf_len b = align_cap /\ forall i l, buf_slots b !! i = Some l -> 0 <= i < align_cap.

(* ================================================================== *)
(** * Properties *)

(** ** Strings *)

Lemma prefix_spec (n h : string) :
  String.prefix n h = true <-> exists s, h = (n ++ s)%string.
Proof.
  revert h; induction n as [|c n IH]; intros h; simpl.
  - split; [intros _; now exists h | intros _; destruct h; reflexivity].
  - destruct h as [|c' h]; simpl.
    + split; [discriminate|]. intros [s Hs]; discriminate.
    + destruct (ascii_dec c c') as [->|Hne].
      * rewrite IH. split; intros [s Hs]; exists s; [now subst | now injection Hs].
      * split; [discriminate|]. intros [s Hs]. injection Hs; intros; congruence.
Qed.

Lemma py_str_in_spec (needle hay : string) :
  py_str_in needle hay = true <->
  exists pre suf, hay = (pre ++ needle ++ suf)%string.
Proof.
  induction hay as [|c hay IH]; cbn [py_str_in].
  - rewrite orb_false_r, prefix_spec. split.
    + intros [s Hs]. exists EmptyString, s. done.
    + intros [pre [suf Hs]]. destruct pre; [now exists suf | discriminate].
  - rewrite orb_true_iff, prefix_spec, IH. split.
    + intros [[s Hs] | [pre [suf Hs]]].
      * exists EmptyString, s. done.
      * exists (String c pre), suf. simpl. now rewrite Hs.
    + intros [pre [suf Hs]]. destruct pre as [|c' pre].
      * left. now exists suf.
      * right. injection Hs as -> Hs. now exists pre, suf.
Qed.

Lemma in_punc_tokens_of (d : dictionary) (punc : string) (w : nat) :
  In w (punc_tokens_of d punc) <->
  (w < length d)%nat /\ py_str_in (dict_get d w) punc = true.
Proof.
  unfold punc_tokens_of. rewrite filter_In, in_seq.
  split; intros [H1 H2]; split; auto; lia.
Qed.

Lemma nodup_punc_tokens_of (d : dictionary) (punc : string) :
  List.NoDup (punc_tokens_of d punc).
Proof. unfold punc_tokens_of. apply List.NoDup_filter, List.seq_NoDup. Qed.

Lemma nodup_all_eq_singleton (l : list nat) (k : nat) :
  List.NoDup l -> (forall x, In x l <-> x = k) -> l = [k].
Proof.
  intros Hnd Hin. destruct l as [|x l].
  - exfalso. apply (proj2 (Hin k)); done.
  - assert (x = k) as -> by (apply Hin; now left).
    inversion Hnd as [|? ? Hnotin _]; subst.
    destruct l as [|y l]; [done|].
    exfalso. apply Hnotin.
    assert (y = k) as <- by (apply Hin; right; now left). now left.
Qed.

(** ** Punctuation-token ids *)

(** C5 (counterexample): the derived ids are not exactly those of the
    single punctuation characters: the token ["()"] at id 0 is derived. *)
Lemma punc_tokens_not_single_char :
  ~ (forall (d : dictionary) (w : nat),
       In w (punc_tokens_of d punctuation) <->
       (w < length d)%nat /\ single_punct (dict_get d w) = true).
Proof.
  intros H. specialize (H ["()"%string] 0%nat).
  assert (Hin : In 0%nat (punc_tokens_of ["()"%string] punctuation))
    by (vm_compute; now left).
  apply H in Hin as [_ Hs]. vm_compute in Hs. discriminate.
Qed.

(** C5 (amended): [punc_tokens_of d string.punctuation] is the list of
    the ids [w < len(d)] whose decoded string is a contiguous substring
    of the punctuation string; with exactly one such id [k] it is [[k]],
    with none it is empty. *)
Theorem punc_tokens_of_spec (d : dictionary) :
  (forall w, In w (punc_tokens_of d punctuation) <->
     (w < length d)%nat /\
     exists pre suf, punctuation = (pre ++ dict_get d w ++ suf)%string) /\
  (forall k, (k < length d)%nat -> py_str_in (dict_get d k) punctuation = true ->
     (forall w, (w < length d)%nat -> py_str_in (dict_get d w) punctuation = true -> w = k) ->
     punc_tokens_of d punctuation = [k]) /\
  ((forall w, (w < length d)%nat -> py_str_in (dict_get d w) punctuation = false) ->
     punc_tokens_of d punctuation = []).
Proof.
  split; [|split].
  - intros w. rewrite in_punc_tokens_of, py_str_in_spec. done.
  - intros k Hk Hpk Huniq. apply nodup_all_eq_singleton.
    + apply nodup_punc_tokens_of.
    + intros x. rewrite in_punc_tokens_of. split.
      * intros [Hx Hpx]. now apply Huniq.
      * intros ->. done.
  - intros Hnone. destruct (punc_tokens_of d punctuation) as [|w l] eqn:E; [done|].
    exfalso. assert (Hw : In w (punc_tokens_of d punctuation)) by (rewrite E; now left).
    apply in_punc_tokens_of in Hw as [Hlt Hp]. rewrite Hnone in Hp by done. discriminate.
Qed.

Lemma punc_tokens_of_spec_witness :
  (1 < length ["a"; ","; "b"]%string)%nat /\
  punc_tokens_of ["a"; ","; "b"]%string punctuation = [1%nat].
Proof.
  split; [simpl; lia|].
  apply (proj1 (proj2 (punc_tokens_of_spec ["a"; ","; "b"]%string)) 1%nat).
  - simpl; lia.
  - vm_compute; reflexivity.
  - intros w Hw Hp. destruct w as [|[|[|w]]]; simpl in *; try lia; vm_compute in Hp; discriminate.
Defined.

(** C10: membership is substring containment in [string.punctuation]:
    an id whose decoded string is empty, or any contiguous run of the
    punctuation string (such as ["()"]), is derived. *)
Theorem punc_tokens_substring_membership (d : dictionary) (w : nat) :
  (w < length d)%nat ->
  (dict_get d w = ""%string -> In w (punc_tokens_of d punctuation)) /\
  (forall pre suf, punctuation = (pre ++ dict_get d w ++ suf)%string ->
     In w (punc_tokens_of d punctuation)).
Proof.
  intros Hw. split.
  - intros He. apply in_punc_tokens_of. split; [done|]. rewrite He.
    apply py_str_in_spec. exists EmptyString, punctuation. reflexivity.
  - intros pre suf Hps. apply in_punc_tokens_of. split; [done|].
    apply py_str_in_spec. eauto.
Qed.

Lemma punc_tokens_substring_membership_witness :
  (0 < length [""; "()"]%string)%nat /\ In 0%nat (punc_tokens_of [""; "()"]%string punctuation) /\
  (1 < length [""; "()"]%string)%nat /\ In 1%nat (punc_tokens_of [""; "()"]%string punctuation).
Proof.
  split; [simpl; lia|]. split.
  - apply (proj1 (punc_tokens_substring_membership [""; "()"]%string 0%nat ltac:(simpl; lia))).
    reflexivity.
  - split; [simpl; lia|].
    apply (proj2 (punc_tokens_substring_membership [""; "()"]%string 1%nat ltac:(simpl; lia))
             (string_of_codes (List.seq 33 7))
             (string_of_codes (List.seq 42 6 ++ List.seq 58 7 ++ List.seq 91 6 ++ List.seq 123 4))).
    vm_compute. reflexivity.
Defined.

(** ** The monad *)

Section MonadFacts.
Context {R : Type}.

Lemma bind_run {A B} (m : PyM R A) (k : A -> PyM R B) (st : state R) :
  (m ≫= k) st = match m st with
                | (st', inl e) => (st', inl e)
                | (st', inr x) => k x st'
                end.
Proof. reflexivity. Qed.

Lemma bind_inr {A B} (m : PyM R A) (k : A -> PyM R B) st st'' y :
  (m ≫= k) st = (st'', inr y) ->
  exists st' x, m st = (st', inr x) /\ k x st' = (st'', inr y).
Proof.
  rewrite bind_run. destruct (m st) as [st' [e|x]]; [discriminate|]. eauto.
Qed.

Lemma keeps_bind {X A B} (f : state R -> X) (m : PyM R A) (k : A -> PyM R B) :
  keeps f m -> (forall x, keeps f (k x)) -> keeps f (m ≫= k).
Proof.
  intros Hm Hk st. rewrite bind_run. specialize (Hm st).
  destruct (m st) as [st' [e|x]]; simpl in *; [done|]. now rewrite Hk.
Qed.

Lemma keeps_ret {X A} (f : state R -> X) (x : A) : keeps f (mret x).
Proof. intros st; reflexivity. Qed.

Lemma keeps_raise {X A} (f : state R -> X) (e : exn) : keeps f (raise (A:=A) e).
Proof. intros st; reflexivity. Qed.

Lemma keeps_get {X} (f : state R -> X) : keeps f get_state.
Proof. intros st; reflexivity. Qed.

Lemma keeps_py_assert {X} (f : state R -> X) b msg : keeps f (py_assert b msg).
Proof. destruct b; intros st; reflexivity. Qed.

Lemma keeps_read_local {X A} (f : state R -> X) name (v : option A) :
  keeps f (read_local name v).
Proof. destruct v; intros st; reflexivity. Qed.

Lemma grows_bind {A B} (m : PyM R A) (k : A -> PyM R B) :
  grows m -> (forall x, grows (k x)) -> grows (m ≫= k).
Proof.
  intros Hm Hk st. rewrite bind_run. destruct (Hm st) as [l1 Hl1].
  destruct (m st) as [st' [e|x]]; simpl in *; [eauto|].
  destruct (Hk x st') as [l2 Hl2]. exists (l1 ++ l2). rewrite Hl2, Hl1. symmetry; apply app_assoc.
Qed.

Lemma grows_nochange {A} (m : PyM R A) :
  keeps trace m -> grows m.
Proof. intros H st. exists []. now rewrite app_nil_r, H. Qed.

End MonadFacts.

Create HintDb frame.
#[export] Hint Resolve keeps_ret keeps_raise keeps_get keeps_py_assert keeps_read_local : frame.

(** Decompose a goal [keeps f m] / [grows m] along the binds and
    branches of [m]. *)
Ltac frame_tac :=
  repeat first
    [ apply keeps_bind; [|intros ?]
    | apply grows_bind; [|intros ?]
    | progress case_match
    | solve [eauto with frame]
    | solve [apply grows_nochange; eauto with frame]
    | solve [intros ?st; reflexivity]
    | solve [intros ?st; eexists; reflexivity]
    | solve [intros ?st; exists []; rewrite app_nil_r; reflexivity] ].

(** ** Frame lemmas for the components of [main] *)

Section Frames.
Context {R : Type} (fw : framework R).

Lemma grows_emit ev : grows (R:=R) (emit ev).
Proof. intros st. now exists [ev]. Qed.

Lemma keeps_trace_buffer_ids a (al : option (Z -> option R)) ids :
  keeps trace (buffer_ids a al ids).
Proof. induction ids; cbn [buffer_ids]; frame_tac. Qed.

Lemma grows_process_batch a uc s : grows (process_batch fw a uc s).
Proof.
  unfold process_batch, extract. frame_tac;
    try apply grows_emit; apply grows_nochange; frame_tac; apply keeps_trace_buffer_ids.
Qed.

Lemma grows_batch_loop a uc bs : grows (batch_loop fw a uc bs).
Proof.
  induction bs; cbn [batch_loop]; [frame_tac|].
  apply grows_bind; [apply grows_process_batch | intros; apply IHbs].
Qed.

Lemma keeps_trace_write_sents p sents : keeps trace (write_sents fw p sents).
Proof. induction sents; cbn [write_sents]; frame_tac. Qed.

Lemma keeps_trace_write_slots p b i n : keeps trace (write_slots fw p b i n).
Proof.
  revert i; induction n; intros i; cbn [write_slots]; [frame_tac|].
  apply keeps_bind; [case_match; [frame_tac | apply keeps_trace_write_sents] | intros; apply IHn].
Qed.

Lemma grows_write_output a : grows (write_output fw a).
Proof.
  unfold write_output. frame_tac. apply grows_nochange, keeps_trace_write_slots.
Qed.

Lemma grows_compute_punc_tokens a : grows (compute_punc_tokens fw a).
Proof. unfold compute_punc_tokens. frame_tac. Qed.

Lemma keeps_files_buffer_ids a (al : option (Z -> option R)) ids :
  keeps files (buffer_ids a al ids).
Proof. induction ids; cbn [buffer_ids]; frame_tac. Qed.

Lemma keeps_tgt_buffer_ids a (al : option (Z -> option R)) ids :
  keeps tgt_punc_tokens (buffer_ids a al ids).
Proof. induction ids; cbn [buffer_ids]; frame_tac. Qed.

Lemma keeps_align_buffer_ids_novanilla a (al : option (Z -> option R)) ids :
  print_vanilla_alignment a = false -> keeps align_sents (buffer_ids a al ids).
Proof.
  intros Hv. induction ids; cbn [buffer_ids]; [frame_tac|].
  rewrite Hv. simpl. frame_tac.
Qed.

Lemma keeps_files_batch_loop a uc bs : keeps files (batch_loop fw a uc bs).
Proof.
  induction bs; cbn [batch_loop]; [frame_tac|].
  apply keeps_bind; [|intros; apply IHbs].
  unfold process_batch, extract. frame_tac; apply keeps_files_buffer_ids.
Qed.

Lemma keeps_tgt_batch_loop a uc bs : keeps tgt_punc_tokens (batch_loop fw a uc bs).
Proof.
  induction bs; cbn [batch_loop]; [frame_tac|].
  apply keeps_bind; [|intros; apply IHbs].
  unfold process_batch, extract. frame_tac; apply keeps_tgt_buffer_ids.
Qed.

Lemma keeps_align_batch_loop_novanilla a uc bs :
  print_vanilla_alignment a = false -> keeps align_sents (batch_loop fw a uc bs).
Proof.
  intros Hv. induction bs; cbn [batch_loop]; [frame_tac|].
  apply keeps_bind; [|intros; apply IHbs].
  unfold process_batch, extract. rewrite Hv. frame_tac.
  now apply keeps_align_buffer_ids_novanilla.
Qed.

Lemma keeps_tgt_write_sents p sents : keeps tgt_punc_tokens (write_sents fw p sents).
Proof. induction sents; cbn [write_sents]; frame_tac. Qed.

Lemma keeps_tgt_write_slots p b i n : keeps tgt_punc_tokens (write_slots fw p b i n).
Proof.
  revert i; induction n; intros i; cbn [write_slots]; [frame_tac|].
  apply keeps_bind; [case_match; [frame_tac | apply keeps_tgt_write_sents] | intros; apply IHn].
Qed.

Lemma keeps_tgt_write_output a : keeps tgt_punc_tokens (write_output fw a).
Proof. unfold write_output. frame_tac. apply keeps_tgt_write_slots. Qed.

Lemma keeps_files_compute_punc_tokens a : keeps files (compute_punc_tokens fw a).
Proof. unfold compute_punc_tokens. frame_tac. Qed.

Lemma keeps_align_compute_punc_tokens a : keeps align_sents (compute_punc_tokens fw a).
Proof. unfold compute_punc_tokens. frame_tac. Qed.

Lemma write_output_skipped a :
  (print_vanilla_alignment a = false \/ decoding_path a = None) ->
  write_output fw a = mret tt.
Proof.
  intros H. unfold write_output.
  destruct H as [H|H]; rewrite H; [now rewrite andb_false_r | reflexivity].
Qed.

End Frames.

#[export] Hint Resolve grows_emit grows_batch_loop grows_write_output
  grows_compute_punc_tokens : frame.

(** ** Startup: assertions and defaults *)

Section Startup.
Context {R : Type} (fw : framework R).

Lemma py_assert_false (msg : string) (st : state R) :
  py_assert false msg st = (st, inl (AssertionError msg)).
Proof. reflexivity. Qed.

Lemma py_assert_true (msg : string) (st : state R) :
  py_assert true msg st = (st, inr tt).
Proof. reflexivity. Qed.

(** C9: without [--path], with [--sampling] and [nbest <> beam], or with
    [--replace-unk] and no [--raw-text], [main] raises an
    [AssertionError] in the initial state: the trace is empty (no dataset
    or model loaded, nothing printed) and no file was touched. *)
Theorem startup_assertions (a : args) :
  (path a = None ->
     run_main fw a = (init_state, inl (AssertionError "--path required for generation!"))) /\
  (sampling a = true -> nbest a <> beam a ->
     exists msg, run_main fw a = (init_state, inl (AssertionError msg))) /\
  (replace_unk a <> None -> raw_text a = false ->
     exists msg, run_main fw a = (init_state, inl (AssertionError msg))).
Proof.
  unfold run_main, main. split; [|split].
  - intros Hp. rewrite bind_run, Hp. reflexivity.
  - intros Hs Hnb. rewrite bind_run. destruct (path a) as [p|]; [|eauto].
    rewrite bool_decide_true by done. rewrite py_assert_true, bind_run, Hs.
    replace (Z.eqb (nbest a) (beam a)) with false by (symmetry; now apply Z.eqb_neq).
    eauto.
  - intros Hu Hr. rewrite bind_run. destruct (path a) as [p|]; [|eauto].
    rewrite bool_decide_true by done. rewrite py_assert_true, bind_run.
    destruct (negb (sampling a) || Z.eqb (nbest a) (beam a)); [|eauto].
    rewrite py_assert_true, bind_run, Hr, bool_decide_false by done.
    eauto.
Qed.

Lemma assert_then {A} (b : bool) (msg : string) (k : PyM R A) (st : state R) :
  b = true -> (py_assert b msg ;; k) st = k st.
Proof. now intros ->. Qed.

Lemma emit_then {A} (ev : event) (k : PyM R A) (st : state R) :
  (emit ev ;; k) st =
  k (mk_state (trace st ++ [ev]) (files st) (src_punc_tokens st)
              (tgt_punc_tokens st) (align_sents st)).
Proof. reflexivity. Qed.

(** C8: the token budget defaults to 12000 when neither budget is given
    and nothing is changed otherwise; this happens right after the
    assertions: the printed [args] and the batch-iterator request that
    follow already carry the filled-in budget. *)
Theorem default_token_budget (a : args) :
  (max_tokens a = None -> max_sentences a = None ->
     fill_defaults a = with_max_tokens a (Some 12000) /\
     max_tokens (fill_defaults a) = Some 12000 /\
     max_sentences (fill_defaults a) = None) /\
  ((max_tokens a <> None \/ max_sentences a <> None) -> fill_defaults a = a) /\
  (path a <> None -> (sampling a = true -> nbest a = beam a) ->
   (replace_unk a <> None -> raw_text a = true) ->
   exists rest,
     trace (fst (run_main fw a)) =
       [EvImportUserModule; EvPrintArgs (fill_defaults a);
        EvLoadDataset (gen_subset a); EvLoadEnsemble (default ""%string (path a));
        EvGetBatchIterator (max_tokens (fill_defaults a))] ++ rest).
Proof.
  split; [|split].
  - intros Ht Hs. unfold fill_defaults. rewrite Ht, Hs. done.
  - intros H. unfold fill_defaults.
    destruct (max_tokens a), (max_sentences a); try done. intuition.
  - intros Hp Hs Hr. unfold run_main, main.
    rewrite assert_then by (destruct (path a); [done | congruence]).
    rewrite assert_then
      by (destruct (sampling a); [rewrite Hs by done; simpl; apply Z.eqb_refl | done]).
    rewrite assert_then
      by (destruct (replace_unk a); [rewrite Hr by done; apply orb_true_r | done]).
    rewrite emit_then. cbv zeta. rewrite !emit_then.
    match goal with
    | |- context [?m ?st] =>
        match st with mk_state _ _ _ _ _ =>
          assert (Hg : grows m) by frame_tac; destruct (Hg st) as [l Hl]
        end
    end.
    exists l. rewrite Hl. simpl.
    assert (gen_subset (fill_defaults a) = gen_subset a) as ->
      by (unfold fill_defaults; repeat case_match; simpl; congruence).
    assert (path (fill_defaults a) = path a) as ->
      by (unfold fill_defaults; repeat case_match; simpl; congruence).
    reflexivity.
Qed.

End Startup.

Lemma startup_assertions_witness :
  sampling (mk_args (Some "m.pt") true 2 5 None false None None false "test"
                    (Some "de") (Some "en") true None "vanilla" 2 false) = true /\
  nbest (mk_args (Some "m.pt") true 2 5 None false None None false "test"
                 (Some "de") (Some "en") true None "vanilla" 2 false) <>
  beam (mk_args (Some "m.pt") true 2 5 None false None None false "test"
                (Some "de") (Some "en") true None "vanilla" 2 false) /\
  exists msg, run_main (ex_fw false ex_batches) (mk_args (Some "m.pt") true 2 5 None false None None false "test"
                         (Some "de") (Some "en") true None "vanilla" 2 false)
              = (init_state, inl (AssertionError msg)).
Proof.
  split; [reflexivity|]. split; [simpl; lia|].
  apply (proj1 (proj2 (startup_assertions (ex_fw false ex_batches) _))); [reflexivity | simpl; lia].
Defined.


#[export] Hint Resolve keeps_files_batch_loop keeps_files_compute_punc_tokens
  keeps_tgt_batch_loop keeps_tgt_write_output keeps_align_batch_loop_novanilla
  keeps_align_compute_punc_tokens : frame.

Lemma preserves_bind {R A B} (P : state R -> Prop) (m : PyM R A) (k : A -> PyM R B) :
  preserves P m -> (forall x, preserves P (k x)) -> preserves P (m ≫= k).
Proof.
  intros Hm Hk st HP. rewrite bind_run. specialize (Hm st HP).
  destruct (m st) as [st' [e|x]]; simpl in *; [done|]. now apply Hk.
Qed.

Lemma preserves_keeps {R X A} (f : state R -> X) (P : state R -> Prop) (m : PyM R A) :
  (forall st st', f st = f st' -> P st -> P st') -> keeps f m -> preserves P m.
Proof. intros HP Hk st H. apply (HP st); [now rewrite Hk | done]. Qed.

Ltac fd_tac := unfold fill_defaults; repeat case_match; simpl; congruence.

(** ** Effects of the alignment flags *)

Section Effects.
Context {R : Type} (fw : framework R).

Lemma keeps_files_main a :
  (print_vanilla_alignment a = false \/ decoding_path a = None) ->
  keeps files (main fw a).
Proof.
  intros H. unfold main. cbv zeta.
  rewrite write_output_skipped
    by (destruct H; [left | right]; fd_tac).
  frame_tac.
Qed.

(** C2: without [--print-vanilla-alignment] no file is written and the
    buffer, when allocated, stays empty; without [--decoding-path] no file
    is written.  Both hold for every outcome of the run. *)
Theorem no_output_without_flags (a : args) :
  (print_vanilla_alignment a = false ->
     files (fst (run_main fw a)) = ∅ /\
     forall b, align_sents (fst (run_main fw a)) = Some b -> buf_slots b = ∅) /\
  (decoding_path a = None -> files (fst (run_main fw a)) = ∅).
Proof.
  split.
  - intros Hv. split.
    + unfold run_main. rewrite keeps_files_main by auto. reflexivity.
    + assert (Hp : preserves (fun st : state R =>
                    forall b, align_sents st = Some b -> buf_slots b = ∅) (main fw a)).
      { unfold main. cbv zeta.
        rewrite write_output_skipped by (left; fd_tac).
        assert (Hv' : print_vanilla_alignment (fill_defaults a) = false) by fd_tac.
        repeat (apply preserves_bind; [|intros ?]);
          try (apply (preserves_keeps align_sents);
               [intros ?st ?st' Heq HP; rewrite <- Heq; exact HP|]; frame_tac; fail).
        destruct (bool_decide _).
        - intros st _ b Hb. injection Hb as <-. reflexivity.
        - apply (preserves_keeps align_sents);
            [intros ?st ?st' Heq HP; rewrite <- Heq; exact HP|]; frame_tac. }
      apply Hp. intros b Hb. discriminate.
  - intros Hd. unfold run_main. rewrite keeps_files_main by auto. reflexivity.
Qed.

(** C6 (as the code has it): without [--print-vanilla-alignment],
    [src_punc_tokens] is set to [None] and nothing is computed, but
    [tgt_punc_tokens] is never assigned: it stays unbound for the whole
    run. *)
Theorem punc_locals_without_alignment (a : args) (st : state R) :
  print_vanilla_alignment a = false ->
  compute_punc_tokens fw a st =
    (mk_state (trace st) (files st) (Some None) (tgt_punc_tokens st) (align_sents st), inr tt) /\
  tgt_punc_tokens (fst (run_main fw a)) = None.
Proof.
  intros Hv. split.
  - unfold compute_punc_tokens. rewrite Hv. reflexivity.
  - assert (Hk : keeps tgt_punc_tokens (main fw a)).
    { unfold main. cbv zeta.
      assert (Hv' : print_vanilla_alignment (fill_defaults a) = false) by fd_tac.
      unfold compute_punc_tokens at 1. rewrite Hv'. frame_tac. }
    unfold run_main. rewrite Hk. reflexivity.
Qed.

(** C7 (amended): a batch without ['net_input'] is still moved to the
    device when CUDA is in use (the transfer comes first), and then
    skipped: nothing else happens for it. *)
Theorem sentinel_batch_skipped (a : args) (use_cuda : bool) (s : sample) (st : state R) :
  has_net_input s = false ->
  process_batch fw a use_cuda s st =
    (mk_state (trace st ++ (if use_cuda then [EvMoveToCuda] else []))
              (files st) (src_punc_tokens st) (tgt_punc_tokens st) (align_sents st),
     inr tt).
Proof.
  intros Hn. unfold process_batch. rewrite Hn.
  destruct use_cuda; [reflexivity|].
  destruct st; simpl. now rewrite app_nil_r.
Qed.

End Effects.

(** ** Buffering and strategy dispatch *)

Section Buffering.
Context {R : Type} (fw : framework R).

(** C3: with the buffer allocated by [main] ([align_cap] = 4,000,000
    slots), appending for an id in [0, align_cap) succeeds on slot [id]
    (given the extractor's result for it); an id [>= align_cap] raises
    [IndexError] before anything is appended, and this exception leaves
    the buffering loop of the batch (nothing in [main] catches it). *)
Theorem buffer_append_bounds (b : buffer R) (sample_id : Z) (al : Z -> option R) :
  buf_len b = align_cap ->
  (0 <= sample_id < align_cap -> forall r, al sample_id = Some r ->
     buffer_append b sample_id (Some al) =
       inr (mk_buffer align_cap (<[sample_id := slot b sample_id ++ [r]]> (buf_slots b)))) /\
  (align_cap <= sample_id ->
     buffer_append b sample_id (Some al) = inl IndexError /\
     forall (a : args) (rest : list Z) (st : state R),
       print_vanilla_alignment a = true -> decoding_path a <> None ->
       align_sents st = Some b ->
       buffer_ids a (Some al) (sample_id :: rest) st = (st, inl IndexError)).
Proof.
  intros Hlen. unfold buffer_append, py_index. rewrite Hlen. split.
  - intros Hin r Hr.
    replace ((0 <=? sample_id) && (sample_id <? align_cap)) with true
      by (symmetry; apply andb_true_intro; split; [apply Z.leb_le | apply Z.ltb_lt]; lia).
    now rewrite Hr.
  - intros Hge.
    replace ((0 <=? sample_id) && (sample_id <? align_cap)) with false
      by (symmetry; apply andb_false_intro2, Z.ltb_ge; lia).
    replace ((- align_cap <=? sample_id) && (sample_id <? 0)) with false
      by (symmetry; apply andb_false_intro2, Z.ltb_ge; unfold align_cap in *; lia).
    split; [done|].
    intros a rest st Hv Hd Hst. cbn [buffer_ids].
    rewrite Hv, bool_decide_true by (destruct (decoding_path a); [done | congruence]).
    unfold mbind, PyM_bind, get_state. simpl. rewrite Hst. simpl.
    unfold buffer_append, py_index. rewrite Hlen.
    replace ((0 <=? sample_id) && (sample_id <? align_cap)) with false
      by (symmetry; apply andb_false_intro2, Z.ltb_ge; lia).
    replace ((- align_cap <=? sample_id) && (sample_id <? 0)) with false
      by (symmetry; apply andb_false_intro2, Z.ltb_ge; unfold align_cap in *; lia).
    reflexivity.
Qed.

Lemma extract_run (a : args) (s : sample) (st : state R) (sp tp : option (list nat)) :
  print_vanilla_alignment a = true ->
  src_punc_tokens st = Some sp -> tgt_punc_tokens st = Some tp ->
  extract fw a s st =
    (mk_state (trace st ++ [EvExtract (set_shift a)]) (files st) (src_punc_tokens st)
              (tgt_punc_tokens st) (align_sents st),
     inr (Some (batch_alignments fw a sp tp s))).
Proof.
  intros Hv Hs Ht. destruct st as [tr fs s0 t0 al]; simpl in Hs, Ht; subst s0 t0.
  unfold extract, batch_alignments. rewrite Hv.
  destruct (set_shift a); reflexivity.
Qed.

Lemma emit_tagged (b : bool) (ev : event) :
  (forall b', ev = EvExtract b' -> b' = b) -> preserves (tagged (R:=R) b) (emit ev).
Proof.
  intros Hev st HP. unfold tagged, extract_events in *. simpl.
  rewrite omap_app. apply Forall_app; split; [done|].
  destruct ev; simpl; repeat constructor. exact (Hev _ eq_refl).
Qed.

Lemma keeps_tagged {A} (b : bool) (m : PyM R A) :
  keeps trace m -> preserves (tagged b) m.
Proof.
  apply preserves_keeps. intros st st' Heq H. unfold tagged in *. now rewrite <- Heq.
Qed.

Ltac tag_tac :=
  repeat first
    [ apply preserves_bind; [|intros ?]
    | progress case_match
    | apply emit_tagged; intros ? ?Hev;
      first [discriminate | injection Hev as <-; congruence]
    | apply keeps_tagged; solve [frame_tac] ].

Lemma tagged_batch_loop (a : args) (uc : bool) (bs : list sample) :
  preserves (tagged (set_shift a)) (batch_loop fw a uc bs).
Proof.
  induction bs; cbn [batch_loop]; [tag_tac|].
  apply preserves_bind; [|intros; apply IHbs].
  unfold process_batch, extract. tag_tac; apply keeps_tagged, keeps_trace_buffer_ids.
Qed.

Lemma tagged_main (a : args) : preserves (tagged (set_shift a)) (main fw a).
Proof.
  unfold main. cbv zeta.
  assert (Hs : set_shift (fill_defaults a) = set_shift a) by fd_tac.
  repeat (apply preserves_bind; [|intros ?]).
  all: try (apply keeps_tagged; solve [frame_tac]).
  all: try (apply emit_tagged; intros ? ?Hev; discriminate).
  - apply keeps_tagged. unfold compute_punc_tokens. frame_tac.
  - rewrite <- Hs. apply tagged_batch_loop.
  - unfold write_output. case_match; [|apply keeps_tagged; frame_tac].
    repeat (apply preserves_bind; [|intros ?]).
    all: try (apply keeps_tagged; solve [frame_tac]).
    all: try (apply emit_tagged; intros ? ?Hev; discriminate).
    apply keeps_tagged, keeps_trace_write_slots.
Qed.

(** C4: with extraction on, every processed batch (one with ['net_input'])
    calls exactly one extractor, the one [--set-shift] selects, and a
    skipped batch (without it) calls none; over a whole run, every extractor call is the
    one [--set-shift] selects. *)
Theorem one_strategy_per_batch (a : args) (use_cuda : bool) (s : sample) (st : state R) :
  print_vanilla_alignment a = true ->
  src_punc_tokens st <> None -> tgt_punc_tokens st <> None ->
  extract_events (trace (fst (process_batch fw a use_cuda s st))) =
    extract_events (trace st) ++ (if has_net_input s then [set_shift a] else []) /\
  Forall (fun shifted => shifted = set_shift a)
         (extract_events (trace (fst (run_main fw a)))).
Proof.
  intros Hv Hs Ht. split.
  - destruct (src_punc_tokens st) as [sp|] eqn:Es; [|congruence].
    destruct (tgt_punc_tokens st) as [tp|] eqn:Et; [|congruence].
    unfold process_batch. rewrite bind_run.
    set (st1 := fst ((if use_cuda then emit EvMoveToCuda else mret tt) st)).
    assert (Hst1 : (if use_cuda then emit EvMoveToCuda else mret tt) st = (st1, inr tt))
      by (destruct use_cuda; reflexivity).
    assert (Htr1 : extract_events (trace st1) = extract_events (trace st))
      by (subst st1; destruct use_cuda; simpl; [unfold extract_events; rewrite omap_app|];
          simpl; rewrite ?app_nil_r; reflexivity).
    assert (Hs1 : src_punc_tokens st1 = Some sp) by (subst st1; destruct use_cuda; done).
    assert (Ht1 : tgt_punc_tokens st1 = Some tp) by (subst st1; destruct use_cuda; done).
    rewrite Hst1. destruct (has_net_input s); simpl.
    + rewrite bind_run, (extract_run a s st1 sp tp Hv Hs1 Ht1).
      rewrite (keeps_trace_buffer_ids a). simpl.
      unfold extract_events in *. rewrite omap_app, Htr1. reflexivity.
    + rewrite app_nil_r. exact Htr1.
  - apply (tagged_main a init_state). constructor.
Qed.

End Buffering.

(** ** Output writing *)

Lemma str_app_assoc (s1 s2 s3 : string) :
  ((s1 ++ s2) ++ s3)%string = (s1 ++ s2 ++ s3)%string.
Proof. induction s1 as [|c s1 IH]; [reflexivity|]. exact (f_equal (String c) IH). Qed.

Lemma str_app_nil_r (s : string) : (s ++ "")%string = s.
Proof. induction s as [|c s IH]; [reflexivity|]. exact (f_equal (String c) IH). Qed.

Lemma lines_of_app {R} (str : R -> string) (l1 l2 : list R) :
  lines_of str (l1 ++ l2) = (lines_of str l1 ++ lines_of str l2)%string.
Proof.
  induction l1 as [|r l1 IH]; [reflexivity|]. simpl. rewrite IH, !str_app_assoc. reflexivity.
Qed.

Section Output.
Context {R : Type} (fw : framework R).

Lemma bind_ok {A B} (m : PyM R A) (k : A -> PyM R B) st st' x :
  m st = (st', inr x) -> (m ≫= k) st = k x st'.
Proof. intros H. rewrite bind_run, H. reflexivity. Qed.

Lemma set_file_same (st : state R) (p F : string) :
  files st !! p = Some F -> set_file st p F = st.
Proof. intros H. destruct st; unfold set_file; simpl in *. now rewrite insert_id. Qed.

Lemma set_file_twice (st : state R) (p c1 c2 : string) :
  set_file (set_file st p c1) p c2 = set_file st p c2.
Proof. unfold set_file; simpl. now rewrite insert_insert_eq. Qed.

Lemma write_sents_run (p : string) (sents : list R) (st : state R) (F : string) :
  files st !! p = Some F ->
  write_sents fw p sents st = (set_file st p (F ++ lines_of (py_str fw) sents), inr tt).
Proof.
  revert st F; induction sents as [|r rest IH]; intros st F HF.
  - simpl. rewrite str_app_nil_r, set_file_same by done. reflexivity.
  - cbn [write_sents]. rewrite (bind_ok _ _ _ (set_file st p (F ++ (py_str fw r ++ newline)))%string tt)
      by (unfold f_write; rewrite HF; reflexivity).
    rewrite (IH _ (F ++ (py_str fw r ++ newline))%string)
      by (unfold set_file; simpl; apply lookup_insert_eq).
    rewrite set_file_twice. simpl. rewrite !str_app_assoc. reflexivity.
Qed.

Lemma write_slots_run (p : string) (b : buffer R) (i : Z) (n : nat) (st : state R) (F : string) :
  files st !! p = Some F ->
  write_slots fw p b i n st =
    (set_file st p (F ++ lines_of (py_str fw)
                        (flat_map (fun k => slot b (i + Z.of_nat k)) (List.seq 0 n))), inr tt).
Proof.
  revert i st F; induction n as [|n IH]; intros i st F HF.
  - simpl. rewrite str_app_nil_r, set_file_same by done. reflexivity.
  - cbn [write_slots].
    assert (Hb : (if Nat.eqb (length (slot b i)) 0 then mret tt else write_sents fw p (slot b i))
                 = write_sents fw p (slot b i))
      by (destruct (slot b i); reflexivity).
    rewrite Hb. erewrite bind_ok by (apply write_sents_run; exact HF).
    rewrite (IH _ _ (F ++ lines_of (py_str fw) (slot b i))%string)
      by (unfold set_file; simpl; apply lookup_insert_eq).
    rewrite set_file_twice. f_equal. f_equal.
    rewrite str_app_assoc. f_equal. cbn [List.seq flat_map].
    change (Z.of_nat 0) with 0. rewrite Z.add_0_r, lines_of_app. f_equal.
    assert (Hfm : forall (f : nat -> list R) l,
               flat_map f (map S l) = flat_map (fun k => f (S k)) l)
      by (intros f l; induction l; simpl; congruence).
    rewrite <- seq_shift, Hfm.
    f_equal. apply flat_map_ext. intros k. f_equal. lia.
Qed.

End Output.

(** ** Buffering order *)

Section Loop.
Context {R : Type} (fw : framework R).

Lemma slot_insert (b : buffer R) (z i : Z) (l : list R) :
  slot (mk_buffer (buf_len b) (<[z := l]> (buf_slots b))) i =
  if decide (z = i) then l else slot b i.
Proof.
  unfold slot; simpl. destruct (decide (z = i)) as [->|Hne].
  - now rewrite lookup_insert_eq.
  - now rewrite lookup_insert_ne.
Qed.

Lemma hits_cons (len i : Z) (al : Z -> option R) (sample_id : Z) (ids : list Z) :
  hits len i al (sample_id :: ids) =
  match (if bool_decide (py_index len sample_id = Some i) then al sample_id else None) with
  | Some r => r :: hits len i al ids
  | None => hits len i al ids
  end.
Proof. reflexivity. Qed.

Lemma buffer_ids_run (a : args) (al : Z -> option R) (ids : list Z)
    (st st' : state R) (b : buffer R) :
  print_vanilla_alignment a = true -> decoding_path a <> None ->
  align_sents st = Some b ->
  buffer_ids a (Some al) ids st = (st', inr tt) ->
  exists b', st' = mk_state (trace st) (files st) (src_punc_tokens st)
                            (tgt_punc_tokens st) (Some b') /\
    buf_len b' = buf_len b /\
    forall i, slot b' i = slot b i ++ hits (buf_len b) i al ids.
Proof.
  intros Hv Hd. revert st b. induction ids as [|sample_id rest IH]; intros st b Hst Hrun.
  - cbn in Hrun. injection Hrun as <-. exists b. split; [|split; [done|]].
    + destruct st; simpl in *; now subst.
    + intros i. now rewrite app_nil_r.
  - cbn [buffer_ids] in Hrun.
    rewrite Hv, bool_decide_true in Hrun by (destruct (decoding_path a); [done | congruence]).
    simpl andb in Hrun.
    apply bind_inr in Hrun as (st1 & [] & H1 & Hrun).
    rewrite (bind_ok _ _ _ st st) in H1 by reflexivity.
    rewrite Hst, (bind_ok _ _ _ st b) in H1 by reflexivity.
    destruct (buffer_append b sample_id (Some al)) as [e|b1] eqn:Eb; [discriminate H1|].
    injection H1 as <-.
    unfold buffer_append in Eb.
    destruct (py_index (buf_len b) sample_id) as [z|] eqn:Ei; [|discriminate Eb].
    destruct (al sample_id) as [r|] eqn:Ea; [|discriminate Eb].
    injection Eb as <-.
    eapply IH in Hrun as (b' & -> & Hlen & Hslot); [|reflexivity].
    exists b'. split; [reflexivity|]. simpl in Hlen. split; [done|].
    intros i. rewrite Hslot, slot_insert, hits_cons, Ei. simpl.
    destruct (decide (z = i)) as [->|Hne].
    + rewrite bool_decide_true, Ea by done. rewrite <- app_assoc. reflexivity.
    + rewrite bool_decide_false by congruence. reflexivity.
Qed.

Lemma batch_loop_run (a : args) (uc : bool) (bs : list sample) (st st' : state R)
    (b : buffer R) (sp tp : option (list nat)) :
  print_vanilla_alignment a = true -> decoding_path a <> None ->
  src_punc_tokens st = Some sp -> tgt_punc_tokens st = Some tp -> align_sents st = Some b ->
  batch_loop fw a uc bs st = (st', inr tt) ->
  exists b', align_sents st' = Some b' /\ buf_len b' = buf_len b /\ files st' = files st /\
    src_punc_tokens st' = Some sp /\ tgt_punc_tokens st' = Some tp /\
    forall i, slot b' i = slot b i ++ appended fw a sp tp (buf_len b) i bs.
Proof.
  intros Hv Hd. revert st b. induction bs as [|s rest IH]; intros st b Hs Ht Hb Hrun.
  - cbn in Hrun. injection Hrun as <-. exists b. repeat split; try done.
    intros i. now rewrite app_nil_r.
  - cbn [batch_loop] in Hrun. apply bind_inr in Hrun as (st1 & [] & H1 & Hrun).
    unfold process_batch in H1. apply bind_inr in H1 as (st0 & [] & H0 & H1).
    assert (Hst0 : files st0 = files st /\ src_punc_tokens st0 = Some sp /\
                   tgt_punc_tokens st0 = Some tp /\ align_sents st0 = Some b)
      by (destruct uc; injection H0 as <-; simpl; auto).
    destruct Hst0 as (Hf0 & Hs0 & Ht0 & Hb0).
    destruct (has_net_input s) eqn:En; simpl in H1.
    + rewrite (bind_ok _ _ _ _ _ (extract_run fw a s st0 sp tp Hv Hs0 Ht0)) in H1.
      destruct (buffer_ids_run a _ _ (mk_state (trace st0 ++ [EvExtract (set_shift a)]) (files st0) (src_punc_tokens st0) (tgt_punc_tokens st0) (align_sents st0)) _ b Hv Hd Hb0 H1) as (b1 & -> & Hlen1 & Hslot1).
      simpl in *.
      destruct (IH (mk_state (trace st0 ++ [EvExtract (set_shift a)]) (files st0) (src_punc_tokens st0) (tgt_punc_tokens st0) (Some b1)) b1 Hs0 Ht0 eq_refl Hrun) as (b' & Hb' & Hlen' & Hf' & Hs' & Ht' & Hslot').
      exists b'. do 5 (split; [simpl in *; congruence|]).
      intros i. rewrite Hslot', Hslot1, Hlen1. simpl. rewrite En, app_assoc. reflexivity.
    + injection H1 as <-.
      destruct (IH _ b Hs0 Ht0 Hb0 Hrun) as (b' & Hb' & Hlen' & Hf' & Hs' & Ht' & Hslot').
      exists b'. do 5 (split; [congruence|]).
      intros i. rewrite Hslot'. simpl. rewrite En. reflexivity.
Qed.

End Loop.

(** ** The output file *)

Lemma starts_with_slash_app (s t : string) :
  s <> ""%string -> starts_with_slash (s ++ t) = starts_with_slash s.
Proof. destruct s; [congruence | reflexivity]. Qed.

Lemma align_file_name_no_slash (a : args) :
  starts_with_slash (gen_subset a) = false -> starts_with_slash (align_file_name a) = false.
Proof.
  unfold align_file_name. destruct (gen_subset a) as [|c s] eqn:E.
  - reflexivity.
  - intros H. rewrite starts_with_slash_app by congruence. exact H.
Qed.

Lemma os_path_join_plain (dp name : string) :
  dp <> ""%string -> ends_with_slash dp = false -> starts_with_slash name = false ->
  os_path_join dp name = (dp ++ "/" ++ name)%string.
Proof.
  intros Hd He Hs. unfold os_path_join. rewrite Hs, He.
  replace (String.eqb dp "") with false by (symmetry; now apply String.eqb_neq).
  reflexivity.
Qed.

Lemma align_file_name_fill_defaults (a : args) :
  align_file_name (fill_defaults a) = align_file_name a.
Proof. unfold fill_defaults. repeat case_match; reflexivity. Qed.

Section Layout.
Context {R : Type} (fw : framework R).

Lemma py_assert_ok {A} (b : bool) (msg : string) (k : PyM R A) (st st' : state R) (x : A) :
  (py_assert b msg ;; k) st = (st', inr x) -> b = true /\ k st = (st', inr x).
Proof. destruct b; [auto | discriminate]. Qed.

Lemma raise_not_ok {A B} (e : exn) (k : A -> PyM R B) (st st' : state R) (x : B) :
  (raise e ≫= k) st <> (st', inr x).
Proof. discriminate. Qed.

Lemma batch_alignments_fill_defaults (a : args) :
  batch_alignments fw (fill_defaults a) = batch_alignments fw a.
Proof. unfold fill_defaults. repeat case_match; reflexivity. Qed.

Lemma appended_fill_defaults (a : args) :
  appended fw (fill_defaults a) = appended fw a.
Proof. unfold appended. now rewrite batch_alignments_fill_defaults. Qed.

Lemma slot_empty (n i : Z) : slot (mk_buffer (R:=R) n ∅) i = [].
Proof. unfold slot. simpl. now rewrite lookup_empty. Qed.

(** C1: when [--print-vanilla-alignment] and [--decoding-path dp] are
    given and the run completes, exactly one file exists afterwards: the
    one at [os.path.join(dp, '<gen_subset>.<src>2<tgt>.align')], which is
    [dp/<gen_subset>.<src>2<tgt>.align] for a plain directory name.  It
    holds the slots of the buffer in ascending index order, each result
    of a slot on a line of its own ([str(result)] and a newline) in
    append order; an empty slot adds nothing.  Slot [i] holds the results
    of the ids that index it, in batch order and id order within a
    batch. *)
Theorem output_file_layout (a : args) (dp : string) (st : state R) :
  print_vanilla_alignment a = true -> decoding_path a = Some dp ->
  run_main fw a = (st, inr tt) ->
  exists sd b,
    source_dictionary fw = Some sd /\
    align_sents st = Some b /\ buf_len b = align_cap /\
    (forall i, slot b i =
       appended fw a (Some (punc_tokens_of sd punctuation))
         (Some (punc_tokens_of (target_dictionary fw) punctuation)) align_cap i (batches fw)) /\
    files st =
      {[ os_path_join dp (align_file_name a) :=
           lines_of (py_str fw)
             (flat_map (fun k => slot b (Z.of_nat k)) (List.seq 0 (Z.to_nat align_cap))) ]} /\
    (dp <> ""%string -> ends_with_slash dp = false -> starts_with_slash (gen_subset a) = false ->
     os_path_join dp (align_file_name a) = (dp ++ "/" ++ align_file_name a)%string).
Proof.
  intros Hv Hd H. unfold run_main, main in H.
  apply py_assert_ok in H as [_ H].
  apply py_assert_ok in H as [_ H].
  apply py_assert_ok in H as [_ H].
  rewrite emit_then in H. cbv zeta in H. rewrite !emit_then in H.
  assert (Hv' : print_vanilla_alignment (fill_defaults a) = true) by fd_tac.
  assert (Hd' : decoding_path (fill_defaults a) = Some dp) by fd_tac.
  unfold compute_punc_tokens at 1 in H. rewrite Hv' in H.
  destruct (source_dictionary fw) as [sd|] eqn:Esd;
    [|exfalso; exact (raise_not_ok _ _ _ _ _ H)].
  erewrite bind_ok in H by reflexivity.
  rewrite emit_then in H. rewrite Hd', bool_decide_true in H by done.
  erewrite bind_ok in H by reflexivity.
  apply bind_inr in H as (st1 & [] & Hl & H).
  eapply batch_loop_run in Hl as (b & Hb & Hlen & Hf & Hs & Ht & Hslot);
    [| exact Hv' | congruence | reflexivity | reflexivity | reflexivity].
  simpl in Hlen, Hf. rewrite emit_then in H.
  unfold write_output in H. rewrite Hd', Hv', bool_decide_true in H by done. simpl in H.
  erewrite bind_ok in H by reflexivity.
  erewrite bind_ok in H by (simpl; rewrite Hb; reflexivity).
  erewrite bind_ok in H by reflexivity.
  erewrite bind_ok in H by reflexivity.
  erewrite bind_ok in H by (apply write_slots_run; simpl; apply lookup_insert_eq).
  injection H as <-.
  exists sd, b. split; [done|]. split; [done|]. split; [done|]. split; [|split].
  - intros i. rewrite Hslot, slot_empty, appended_fill_defaults. reflexivity.
  - unfold set_file. cbn [files]. rewrite Hf, Hlen, align_file_name_fill_defaults.
    rewrite insert_insert_eq, insert_empty.
    reflexivity.
  - intros Hne He Hg. apply os_path_join_plain; [done | done |].
    now apply align_file_name_no_slash.
Qed.

End Layout.

(* ================================================================== *)
(** ** Properties beyond the claims *)

Section BufferExtras.
Context {R : Type}.

Lemma py_index_range (len i j : Z) : py_index len i = Some j -> 0 <= j < len.
Proof.
  unfold py_index.
  destruct ((0 <=? i) && (i <? len)) eqn:E1.
  - intros [= <-]. apply andb_prop in E1 as [H1 H2]. apply Z.leb_le in H1. apply Z.ltb_lt in H2. lia.
  - destruct ((- len <=? i) && (i <? 0)) eqn:E2; [|discriminate].
    intros [= <-]. apply andb_prop in E2 as [H1 H2]. apply Z.leb_le in H1. apply Z.ltb_lt in H2. lia.
Qed.

Lemma buffer_ids_cons (a : args) (al : option (Z -> option R)) (sample_id : Z) (rest : list Z)
    (st : state R) (b : buffer R) :
  print_vanilla_alignment a = true -> decoding_path a <> None -> align_sents st = Some b ->
  buffer_ids a al (sample_id :: rest) st =
    match buffer_append b sample_id al with
    | inl e => (st, inl e)
    | inr b' => buffer_ids a al rest
                  (mk_state (trace st) (files st) (src_punc_tokens st) (tgt_punc_tokens st) (Some b'))
    end.
Proof.
  intros Hv Hd Hst. cbn [buffer_ids].
  rewrite Hv, bool_decide_true by (destruct (decoding_path a); [done | congruence]).
  simpl andb. unfold mbind, PyM_bind, mret, PyM_ret, get_state, read_local.
  rewrite Hst. cbn [mret PyM_ret].
  destruct (buffer_append b sample_id al); reflexivity.
Qed.

Lemma buffer_ids_unbound (a : args) (al : option (Z -> option R)) (sample_id : Z) (rest : list Z)
    (st : state R) :
  print_vanilla_alignment a = true -> decoding_path a <> None -> align_sents st = None ->
  buffer_ids a al (sample_id :: rest) st = (st, inl (UnboundLocalError "align_sents")).
Proof.
  intros Hv Hd Hst. cbn [buffer_ids].
  rewrite Hv, bool_decide_true by (destruct (decoding_path a); [done | congruence]).
  simpl andb. unfold mbind, PyM_bind, get_state, read_local. rewrite Hst. reflexivity.
Qed.

Lemma buffer_append_slots (b b' : buffer R) (sample_id : Z) (al : option (Z -> option R)) :
  buffer_append b sample_id al = inr b' ->
  buf_len b' = buf_len b /\
  forall i l, buf_slots b' !! i = Some l -> buf_slots b !! i = Some l \/ 0 <= i < buf_len b.
Proof.
  unfold buffer_append. destruct (py_index (buf_len b) sample_id) as [j|] eqn:Ej; [|discriminate].
  destruct al as [al|]; [|discriminate]. destruct (al sample_id); [|discriminate].
  intros [= <-]. simpl. split; [done|]. intros i l Hl.
  destruct (decide (j = i)) as [->|Hne].
  - right. exact (py_index_range _ _ _ Ej).
  - left. now rewrite lookup_insert_ne in Hl.
Qed.

Lemma buffer_ids_skip (a : args) (al : option (Z -> option R)) (ids : list Z) (st : state R) :
  print_vanilla_alignment a = false \/ decoding_path a = None ->
  buffer_ids a al ids st = (st, inr tt).
Proof.
  intros H. induction ids as [|sample_id rest IH]; [reflexivity|].
  cbn [buffer_ids].
  replace (print_vanilla_alignment a && bool_decide (is_Some (decoding_path a))) with false
    by (destruct H as [H|H]; rewrite H; [reflexivity | now rewrite andb_false_r]).
  exact IH.
Qed.

Lemma buffer_append_ok (b : buffer R) (sample_id : Z) (al : Z -> option R) :
  ids_ok (buf_len b) al [sample_id] = true ->
  exists j r, py_index (buf_len b) sample_id = Some j /\ al sample_id = Some r /\
    buffer_append b sample_id (Some al) =
      inr (mk_buffer (buf_len b) (<[j := slot b j ++ [r]]> (buf_slots b))).
Proof.
  unfold ids_ok, buffer_append. simpl. rewrite andb_true_r.
  destruct (py_index (buf_len b) sample_id) as [j|]; [|discriminate].
  destruct (al sample_id) as [r|]; [|discriminate]. eauto.
Qed.

Lemma buffer_append_fail (b : buffer R) (sample_id : Z) (al : Z -> option R) :
  ids_ok (buf_len b) al [sample_id] = false ->
  exists e, buffer_append b sample_id (Some al) = inl e /\ (e = IndexError \/ e = KeyError sample_id).
Proof.
  unfold ids_ok, buffer_append. simpl. rewrite andb_true_r.
  destruct (py_index (buf_len b) sample_id) as [j|]; [|eauto].
  destruct (al sample_id) as [r|]; [discriminate|eauto].
Qed.

(** X1: A negative sample id [-4000000 <= id < 0] does not raise: Python's indexing
    wraps it to slot [id + 4000000], which gets the result appended. *)
Theorem buffer_append_negative_id (b : buffer R) (sample_id : Z) (al : Z -> option R) (r : R) :
  buf_len b = align_cap -> - align_cap <= sample_id < 0 -> al sample_id = Some r ->
  buffer_append b sample_id (Some al) =
    inr (mk_buffer align_cap
           (<[sample_id + align_cap := slot b (sample_id + align_cap) ++ [r]]> (buf_slots b))).
Proof.
  intros Hlen Hin Hr. unfold buffer_append, py_index. rewrite Hlen.
  replace ((0 <=? sample_id) && (sample_id <? align_cap)) with false
    by (symmetry; apply andb_false_intro1, Z.leb_gt; lia).
  replace ((- align_cap <=? sample_id) && (sample_id <? 0)) with true
    by (symmetry; apply andb_true_intro; split; [apply Z.leb_le | apply Z.ltb_lt]; lia).
  now rewrite Hr.
Qed.

(** X2: When buffering a batch's ids fails at some id, the exception is an
    IndexError or a KeyError for that id, and the appends made for the ids
    before it stay in the buffer. *)
Theorem buffer_ids_failure_keeps_earlier (a : args) (al : Z -> option R)
    (ids1 : list Z) (sample_id : Z) (ids2 : list Z) (st : state R) (b : buffer R) :
  print_vanilla_alignment a = true -> decoding_path a <> None -> align_sents st = Some b ->
  ids_ok (buf_len b) al ids1 = true -> ids_ok (buf_len b) al [sample_id] = false ->
  exists e b',
    buffer_ids a (Some al) (ids1 ++ sample_id :: ids2) st =
      (mk_state (trace st) (files st) (src_punc_tokens st) (tgt_punc_tokens st) (Some b'),
       inl e) /\
    (e = IndexError \/ e = KeyError sample_id) /\
    buf_len b' = buf_len b /\
    forall i, slot b' i = slot b i ++ hits (buf_len b) i al ids1.
Proof.
  intros Hv Hd. revert st b. induction ids1 as [|id0 ids1 IH]; intros st b Hst Hok Hfail.
  - cbn [app]. rewrite (buffer_ids_cons _ _ _ _ _ b Hv Hd Hst).
    destruct (buffer_append_fail b sample_id al Hfail) as (e & -> & He).
    exists e, b. split; [|split; [done | split; [done|]]].
    + destruct st; simpl in *; now subst.
    + intros i. now rewrite app_nil_r.
  - simpl in Hok. apply andb_prop in Hok as [Hok0 Hok].
    rewrite <- app_comm_cons, (buffer_ids_cons _ _ _ _ _ b Hv Hd Hst).
    destruct (buffer_append_ok b id0 al) as (j & r & Hj & Hr & ->);
      [simpl; now rewrite Hok0|].
    set (b1 := mk_buffer (buf_len b) (<[j := slot b j ++ [r]]> (buf_slots b))).
    destruct (IH (mk_state (trace st) (files st) (src_punc_tokens st) (tgt_punc_tokens st) (Some b1))
                 b1 eq_refl Hok Hfail)
      as (e & b' & Hrun & He & Hlen & Hslot).
    exists e, b'. rewrite Hrun. split; [reflexivity|]. split; [done|]. split; [done|].
    intros i. rewrite Hslot. subst b1. cbn [buf_len]. rewrite slot_insert, hits_cons, Hj.
    destruct (decide (j = i)) as [->|Hne].
    + rewrite bool_decide_true, Hr by done. rewrite <- app_assoc. reflexivity.
    + rewrite bool_decide_false by congruence. reflexivity.
Qed.

Lemma buffer_ids_ok_run (a : args) (al : Z -> option R) (ids : list Z) (st : state R) (b : buffer R) :
  print_vanilla_alignment a = true -> decoding_path a <> None -> align_sents st = Some b ->
  ids_ok (buf_len b) al ids = true ->
  exists st', buffer_ids a (Some al) ids st = (st', inr tt).
Proof.
  intros Hv Hd. revert st b. induction ids as [|id0 ids IH]; intros st b Hst Hok; [eauto|].
  simpl in Hok. apply andb_prop in Hok as [Hok0 Hok].
  rewrite (buffer_ids_cons _ _ _ _ _ b Hv Hd Hst).
  destruct (buffer_append_ok b id0 al) as (j & r & Hj & Hr & ->); [simpl; now rewrite Hok0|].
  exact (IH (mk_state (trace st) (files st) (src_punc_tokens st) (tgt_punc_tokens st)
                      (Some (mk_buffer (buf_len b) (<[j := slot b j ++ [r]]> (buf_slots b)))))
            _ eq_refl Hok).
Qed.

Lemma buffer_ids_run_ok (a : args) (al : Z -> option R) (ids : list Z) (st st' : state R) (b : buffer R) :
  print_vanilla_alignment a = true -> decoding_path a <> None -> align_sents st = Some b ->
  buffer_ids a (Some al) ids st = (st', inr tt) -> ids_ok (buf_len b) al ids = true.
Proof.
  intros Hv Hd. revert st b. induction ids as [|id0 ids IH]; intros st b Hst Hrun; [done|].
  rewrite (buffer_ids_cons _ _ _ _ _ b Hv Hd Hst) in Hrun.
  destruct (ids_ok (buf_len b) al [id0]) eqn:Hok0.
  - destruct (buffer_append_ok b id0 al Hok0) as (j & r & Hj & Hr & Eb).
    rewrite Eb in Hrun. eapply IH in Hrun; [|reflexivity].
    simpl. simpl in Hok0. rewrite andb_true_r in Hok0. rewrite Hok0. exact Hrun.
  - destruct (buffer_append_fail b id0 al Hok0) as (e & Eb & _). rewrite Eb in Hrun. discriminate.
Qed.

(** X3: Buffering a batch's ids succeeds iff each id indexes the buffer and
    has a result in the alignment mapping. *)
Theorem buffer_ids_succeeds_iff (a : args) (al : Z -> option R) (ids : list Z) (st : state R) (b : buffer R) :
  print_vanilla_alignment a = true -> decoding_path a <> None -> align_sents st = Some b ->
  (exists st', buffer_ids a (Some al) ids st = (st', inr tt)) <-> ids_ok (buf_len b) al ids = true.
Proof.
  intros Hv Hd Hst. split.
  - intros [st' Hrun]. exact (buffer_ids_run_ok a al ids st st' b Hv Hd Hst Hrun).
  - exact (buffer_ids_ok_run a al ids st b Hv Hd Hst).
Qed.

End BufferExtras.


Section LoopExtras.
Context {R : Type} (fw : framework R).

Lemma cuda_step (uc : bool) (st : state R) :
  (if uc then emit EvMoveToCuda else mret tt) st =
    (mk_state (trace st ++ (if uc then [EvMoveToCuda] else [])) (files st)
              (src_punc_tokens st) (tgt_punc_tokens st) (align_sents st), inr tt).
Proof. destruct uc; [reflexivity|]. destruct st; simpl. now rewrite app_nil_r. Qed.

Lemma process_batch_skip (a : args) (uc : bool) (s : sample) (st : state R) :
  print_vanilla_alignment a = false \/ decoding_path a = None ->
  (print_vanilla_alignment a = true -> src_punc_tokens st <> None /\ tgt_punc_tokens st <> None) ->
  process_batch fw a uc s st =
    (mk_state (trace st ++ batch_events a uc s) (files st) (src_punc_tokens st)
              (tgt_punc_tokens st) (align_sents st), inr tt).
Proof.
  intros Hg Hloc. unfold process_batch, batch_events. rewrite bind_run, cuda_step.
  destruct (has_net_input s) eqn:En; simpl.
  - destruct (print_vanilla_alignment a) eqn:Ev.
    + destruct (Hloc eq_refl) as [Hs Ht].
      destruct (src_punc_tokens st) as [sp|] eqn:Es; [|congruence].
      destruct (tgt_punc_tokens st) as [tp|] eqn:Et; [|congruence].
      rewrite bind_run, (extract_run fw a s _ sp tp Ev) by first [reflexivity | simpl; assumption].
      rewrite buffer_ids_skip by (destruct Hg; [congruence | auto]).
      simpl. rewrite <- app_assoc. reflexivity.
    + rewrite bind_run. unfold extract. rewrite Ev. cbn [mret PyM_ret].
      rewrite buffer_ids_skip by auto. rewrite app_nil_r. reflexivity.
  - rewrite app_nil_r. reflexivity.
Qed.

Lemma batch_loop_skip (a : args) (uc : bool) (bs : list sample) (st : state R) :
  print_vanilla_alignment a = false \/ decoding_path a = None ->
  (print_vanilla_alignment a = true -> src_punc_tokens st <> None /\ tgt_punc_tokens st <> None) ->
  batch_loop fw a uc bs st =
    (mk_state (trace st ++ flat_map (batch_events a uc) bs) (files st) (src_punc_tokens st)
              (tgt_punc_tokens st) (align_sents st), inr tt).
Proof.
  intros Hg. revert st. induction bs as [|s rest IH]; intros st Hloc.
  - destruct st; simpl. now rewrite app_nil_r.
  - cbn [batch_loop]. rewrite bind_run, process_batch_skip by assumption.
    rewrite IH by exact Hloc. simpl. now rewrite app_assoc.
Qed.

Lemma process_batch_vanilla (a : args) (uc : bool) (s : sample) (st : state R)
    (sp tp : option (list nat)) :
  print_vanilla_alignment a = true ->
  src_punc_tokens st = Some sp -> tgt_punc_tokens st = Some tp ->
  process_batch fw a uc s st =
    if has_net_input s
    then buffer_ids a (Some (batch_alignments fw a sp tp s)) (sample_ids s)
           (mk_state (trace st ++ batch_events a uc s) (files st) (src_punc_tokens st)
                     (tgt_punc_tokens st) (align_sents st))
    else (mk_state (trace st ++ batch_events a uc s) (files st) (src_punc_tokens st)
                   (tgt_punc_tokens st) (align_sents st), inr tt).
Proof.
  intros Hv Hs Ht. unfold process_batch, batch_events. rewrite bind_run, cuda_step, Hv.
  destruct (has_net_input s); simpl.
  - rewrite bind_run, (extract_run fw a s _ sp tp Hv) by (simpl; assumption).
    simpl. now rewrite <- app_assoc.
  - now rewrite app_nil_r.
Qed.

Lemma buffer_append_exn (b : buffer R) (sample_id : Z) (al : Z -> option R) (e : exn) :
  buffer_append b sample_id (Some al) = inl e -> e = IndexError \/ e = KeyError sample_id.
Proof.
  unfold buffer_append. destruct (py_index (buf_len b) sample_id); [|intros [= <-]; auto].
  destruct (al sample_id); [discriminate | intros [= <-]; auto].
Qed.

Lemma buffer_ids_exn (a : args) (al : Z -> option R) (ids : list Z) (st st' : state R)
    (b : buffer R) (e : exn) :
  print_vanilla_alignment a = true -> decoding_path a <> None -> align_sents st = Some b ->
  buffer_ids a (Some al) ids st = (st', inl e) ->
  e = IndexError \/ exists k, e = KeyError k.
Proof.
  intros Hv Hd. revert st b. induction ids as [|id0 ids IH]; intros st b Hst Hrun; [discriminate|].
  rewrite (buffer_ids_cons _ _ _ _ _ b Hv Hd Hst) in Hrun.
  destruct (buffer_append b id0 (Some al)) as [e'|b'] eqn:Eb.
  - injection Hrun as _ <-. destruct (buffer_append_exn _ _ _ _ Eb) as [->| ->]; eauto.
  - eapply IH; [|exact Hrun]. reflexivity.
Qed.

(** The loop with buffering on: it runs to the end iff every id of every
    batch with input can be buffered; otherwise it stops on an
    [IndexError] or a [KeyError]. *)
Lemma batch_loop_vanilla (a : args) (uc : bool) (bs : list sample) (st : state R)
    (b : buffer R) (sp tp : option (list nat)) :
  print_vanilla_alignment a = true -> decoding_path a <> None ->
  src_punc_tokens st = Some sp -> tgt_punc_tokens st = Some tp -> align_sents st = Some b ->
  ((exists st', batch_loop fw a uc bs st = (st', inr tt)) <->
     batches_ok fw a sp tp (buf_len b) bs = true) /\
  (forall st' e, batch_loop fw a uc bs st = (st', inl e) ->
     e = IndexError \/ exists k, e = KeyError k).
Proof.
  intros Hv Hd. revert st b. induction bs as [|s rest IH]; intros st b Hs Ht Hb.
  { split; [split; [reflexivity | eauto] | discriminate]. }
  cbn [batch_loop]. rewrite bind_run, (process_batch_vanilla a uc s st sp tp Hv Hs Ht).
  set (st0 := mk_state (trace st ++ batch_events a uc s) (files st) (src_punc_tokens st)
                       (tgt_punc_tokens st) (align_sents st)).
  assert (Hb0 : align_sents st0 = Some b) by exact Hb.
  assert (Hs0 : src_punc_tokens st0 = Some sp) by exact Hs.
  assert (Ht0 : tgt_punc_tokens st0 = Some tp) by exact Ht.
  unfold batches_ok. cbn [forallb]. fold (batches_ok fw a sp tp (buf_len b) rest).
  destruct (has_net_input s) eqn:En; simpl negb; cbn [orb].
  - destruct (buffer_ids a (Some (batch_alignments fw a sp tp s)) (sample_ids s) st0)
      as [st1 [e|[]]] eqn:E1.
    + split.
      * split; [intros [st' Hst']; discriminate|].
        intros Hok. apply andb_prop in Hok as [Hok _].
        apply (buffer_ids_ok_run a _ _ st0 b Hv Hd Hb0) in Hok as [st' Hst'].
        congruence.
      * intros st' e' [= _ <-]. exact (buffer_ids_exn a _ _ _ _ b e Hv Hd Hb0 E1).
    + pose proof (buffer_ids_run_ok a _ _ st0 st1 b Hv Hd Hb0 E1) as Hok.
      rewrite Hok. simpl andb.
      destruct (buffer_ids_run a _ _ st0 st1 b Hv Hd Hb0 E1) as (b1 & -> & Hlen1 & _).
      rewrite <- Hlen1.
      apply (IH (mk_state (trace st0) (files st0) (src_punc_tokens st0) (tgt_punc_tokens st0) (Some b1))
                b1 Hs0 Ht0 eq_refl).
  - apply (IH st0 b Hs0 Ht0 Hb0).
Qed.

End LoopExtras.


Lemma batch_events_fill_defaults (a : args) (uc : bool) :
  batch_events (fill_defaults a) uc = batch_events a uc.
Proof. unfold fill_defaults. repeat case_match; reflexivity. Qed.

Section MainExtras.
Context {R : Type} (fw : framework R).

Lemma checks_split (a : args) :
  startup_checks_pass a = true ->
  bool_decide (is_Some (path a)) = true /\ (negb (sampling a) || Z.eqb (nbest a) (beam a)) = true /\
  (bool_decide (replace_unk a = None) || raw_text a) = true.
Proof. unfold startup_checks_pass. intros H. apply andb_prop in H as [H H3]. apply andb_prop in H as [H1 H2]. auto. Qed.

Lemma main_checks_fail (a : args) :
  startup_checks_pass a = false -> exists msg, run_main fw a = (init_state, inl (AssertionError msg)).
Proof.
  unfold startup_checks_pass, run_main, main. intros H. rewrite bind_run.
  destruct (bool_decide (is_Some (path a))); [|eauto]. rewrite py_assert_true, bind_run.
  destruct (negb (sampling a) || Z.eqb (nbest a) (beam a)); [|eauto].
  rewrite py_assert_true, bind_run.
  destruct (bool_decide (replace_unk a = None) || raw_text a); [discriminate|eauto].
Qed.

Ltac setup_tac a :=
  let Hc := fresh in
  match goal with H : startup_checks_pass a = true |- _ => pose proof (checks_split a H) as Hc end;
  destruct Hc as (Hc1 & Hc2 & Hc3);
  unfold run_main, main;
  rewrite assert_then by exact Hc1;
  rewrite assert_then by exact Hc2;
  rewrite assert_then by exact Hc3;
  rewrite emit_then; cbv zeta; rewrite !emit_then;
  unfold compute_punc_tokens at 1;
  let E1 := fresh in let E2 := fresh in let E3 := fresh in
  let E4 := fresh in let E5 := fresh in let E6 := fresh in
  assert (E1 : print_vanilla_alignment (fill_defaults a) = print_vanilla_alignment a) by fd_tac;
  assert (E2 : decoding_path (fill_defaults a) = decoding_path a) by fd_tac;
  assert (E3 : gen_subset (fill_defaults a) = gen_subset a) by fd_tac;
  assert (E4 : path (fill_defaults a) = path a) by fd_tac;
  assert (E5 : max_sentences (fill_defaults a) = max_sentences a) by fd_tac;
  assert (E6 : cpu (fill_defaults a) = cpu a) by fd_tac;
  rewrite ?E1, ?E2, ?E3, ?E4, ?E5, ?E6.

Lemma main_setup_vanilla (a : args) (sd : dictionary) :
  startup_checks_pass a = true -> print_vanilla_alignment a = true ->
  source_dictionary fw = Some sd ->
  run_main fw a =
    (batch_loop fw (fill_defaults a) (cuda_available fw && negb (cpu a)) (batches fw) ;;
     emit EvPrintEndTime ;; write_output fw (fill_defaults a))
    (mk_state (startup_events a) ∅ (Some (Some (punc_tokens_of sd punctuation)))
       (Some (Some (punc_tokens_of (target_dictionary fw) punctuation)))
       (if bool_decide (is_Some (decoding_path a)) then Some (mk_buffer align_cap ∅) else None)).
Proof.
  intros Hc Hv Hsd. setup_tac a. rewrite Hv, Hsd.
  erewrite bind_ok by reflexivity. rewrite emit_then.
  destruct (bool_decide (is_Some (decoding_path a))); erewrite bind_ok by reflexivity; reflexivity.
Qed.

Lemma main_setup_plain (a : args) :
  startup_checks_pass a = true -> print_vanilla_alignment a = false ->
  run_main fw a =
    (batch_loop fw (fill_defaults a) (cuda_available fw && negb (cpu a)) (batches fw) ;;
     emit EvPrintEndTime ;; write_output fw (fill_defaults a))
    (mk_state (startup_events a) ∅ (Some None) None
       (if bool_decide (is_Some (decoding_path a)) then Some (mk_buffer align_cap ∅) else None)).
Proof.
  intros Hc Hv. setup_tac a. rewrite Hv.
  erewrite bind_ok by reflexivity. rewrite emit_then.
  destruct (bool_decide (is_Some (decoding_path a))); erewrite bind_ok by reflexivity; reflexivity.
Qed.

Lemma main_no_source_dictionary (a : args) :
  startup_checks_pass a = true -> print_vanilla_alignment a = true ->
  source_dictionary fw = None ->
  run_main fw a = (mk_state (removelast (startup_events a)) ∅ None None None,
                   inl (TypeError "object of type 'NoneType' has no len()")).
Proof. intros Hc Hv Hsd. setup_tac a. rewrite Hv, Hsd. reflexivity. Qed.

Lemma write_output_vanilla (a : args) (dp : string) (st : state R) (b : buffer R) :
  print_vanilla_alignment a = true -> decoding_path a = Some dp -> align_sents st = Some b ->
  write_output fw a st =
    (mk_state (trace st ++ [EvOpenWrite (os_path_join dp (align_file_name a)); EvPrintFinished])
       (<[os_path_join dp (align_file_name a) :=
            lines_of (py_str fw)
              (flat_map (fun k => slot b (Z.of_nat k)) (List.seq 0 (Z.to_nat (buf_len b))))]>
          (files st))
       (src_punc_tokens st) (tgt_punc_tokens st) (align_sents st), inr tt).
Proof.
  intros Hv Hd Hb. unfold write_output. rewrite Hd, Hv, bool_decide_true by done.
  cbv zeta. cbn [andb default].
  rewrite (bind_ok _ _ st st st) by reflexivity.
  rewrite (bind_ok _ _ st st b) by (unfold read_local; rewrite Hb; reflexivity).
  erewrite bind_ok by reflexivity.
  erewrite bind_ok by reflexivity.
  erewrite bind_ok by (apply write_slots_run; cbn [files]; apply lookup_insert_eq).
  unfold set_file, emit. cbn [trace files src_punc_tokens tgt_punc_tokens align_sents].
  rewrite insert_insert_eq, <- app_assoc. reflexivity.
Qed.

(** The rest of [main] after the set-up, when the loop returns. *)
Lemma finish_run (a : args) (st1 : state R) :
  (print_vanilla_alignment a = true -> decoding_path a <> None -> align_sents st1 <> None) ->
  exists st2, (emit EvPrintEndTime ;; write_output fw a) st1 = (st2, inr tt) /\
    (print_vanilla_alignment a = false \/ decoding_path a = None -> files st2 = files st1).
Proof.
  intros H. rewrite emit_then.
  destruct (print_vanilla_alignment a) eqn:Hv.
  - destruct (decoding_path a) as [dp|] eqn:Hd.
    + destruct (align_sents st1) as [b|] eqn:Hb; [|exfalso; now apply H].
      eexists. split; [|intros [?|?]; discriminate].
      eapply write_output_vanilla; [exact Hv | exact Hd | reflexivity].
    + rewrite write_output_skipped by auto. eexists. split; [reflexivity|]. reflexivity.
  - rewrite write_output_skipped by auto. eexists. split; [reflexivity|]. reflexivity.
Qed.

End MainExtras.



Section RunExtras.
Context {R : Type} (fw : framework R).

Lemma aos_bind {A B} (m : PyM R A) (k : A -> PyM R B) l1 l2 :
  appends_on_success m l1 -> (forall x, appends_on_success (k x) l2) ->
  appends_on_success (m ≫= k) (l1 ++ l2).
Proof.
  intros Hm Hk st st' y H. rewrite bind_run in H.
  destruct (m st) as [st1 [e|x]] eqn:E; [discriminate|].
  rewrite (Hk x st1 st' y H), (Hm st st1 x E). symmetry; apply app_assoc.
Qed.

Lemma aos_keeps {A} (m : PyM R A) : keeps trace m -> appends_on_success m [].
Proof. intros Hk st st' x H. specialize (Hk st). rewrite H in Hk. simpl in Hk. now rewrite Hk, app_nil_r. Qed.

Lemma aos_extract (a : args) (s : sample) :
  appends_on_success (extract fw a s)
    (if print_vanilla_alignment a then [EvExtract (set_shift a)] else []).
Proof.
  intros st st' x H. unfold extract in H. destruct (print_vanilla_alignment a).
  - destruct st as [tr fs [sp|] [tp|] al];
      unfold mbind, PyM_bind, get_state, read_local, raise, mret, PyM_ret in H; simpl in H;
      try discriminate.
    destruct (set_shift a); injection H as <- _; reflexivity.
  - injection H as <- _. now rewrite app_nil_r.
Qed.

Lemma aos_process_batch (a : args) (uc : bool) (s : sample) :
  appends_on_success (process_batch fw a uc s) (batch_events a uc s).
Proof.
  unfold process_batch, batch_events. apply aos_bind.
  - intros st st' x H. rewrite cuda_step in H. now injection H as <- _.
  - intros _. destruct (has_net_input s); simpl.
    + rewrite <- (app_nil_r (if print_vanilla_alignment a then _ else _)).
      apply aos_bind; [apply aos_extract|]. intros al. apply aos_keeps, keeps_trace_buffer_ids.
    + apply aos_keeps. intros st; reflexivity.
Qed.

Lemma aos_batch_loop (a : args) (uc : bool) (bs : list sample) :
  appends_on_success (batch_loop fw a uc bs) (flat_map (batch_events a uc) bs).
Proof.
  induction bs as [|s rest IH].
  - apply aos_keeps. intros st; reflexivity.
  - cbn [batch_loop flat_map]. apply aos_bind; [apply aos_process_batch | intros; exact IH].
Qed.

Lemma aos_write_output (a : args) :
  appends_on_success (write_output fw a)
    (if bool_decide (is_Some (decoding_path a)) && print_vanilla_alignment a
     then [EvOpenWrite (os_path_join (default ""%string (decoding_path a)) (align_file_name a));
           EvPrintFinished]
     else []).
Proof.
  intros st st' x H.
  destruct (print_vanilla_alignment a) eqn:Hv; [destruct (decoding_path a) as [dp|] eqn:Hd|].
  - simpl. destruct (align_sents st) as [b|] eqn:Hb.
    + rewrite (write_output_vanilla fw a dp st b Hv Hd Hb) in H. now injection H as <- _.
    + unfold write_output in H. rewrite Hd, Hv, bool_decide_true in H by done.
      unfold mbind, PyM_bind, get_state, read_local in H. simpl in H. rewrite Hb in H. discriminate.
  - rewrite write_output_skipped in H by auto. injection H as <- _. now rewrite app_nil_r.
  - rewrite write_output_skipped in H by auto. injection H as <- _.
    rewrite andb_false_r. now rewrite app_nil_r.
Qed.

(** Every path through [main] that gets past the set-up. *)
Lemma main_setup_any (a : args) :
  startup_checks_pass a = true ->
  (print_vanilla_alignment a = true -> source_dictionary fw <> None) ->
  exists st0, trace st0 = startup_events a /\ files st0 = ∅ /\
    align_sents st0 = (if bool_decide (is_Some (decoding_path a))
                       then Some (mk_buffer align_cap ∅) else None) /\
    (print_vanilla_alignment a = true -> src_punc_tokens st0 <> None /\ tgt_punc_tokens st0 <> None) /\
    run_main fw a =
      (batch_loop fw (fill_defaults a) (cuda_available fw && negb (cpu a)) (batches fw) ;;
       emit EvPrintEndTime ;; write_output fw (fill_defaults a)) st0.
Proof.
  intros Hc Hsd. destruct (print_vanilla_alignment a) eqn:Hv.
  - destruct (source_dictionary fw) as [sd|] eqn:Esd; [|exfalso; now apply Hsd].
    eexists. split; [|split; [|split; [|split; [|apply (main_setup_vanilla fw a sd Hc Hv Esd)]]]];
      try reflexivity. intros _. split; discriminate.
  - eexists. split; [|split; [|split; [|split; [|apply (main_setup_plain fw a Hc Hv)]]]];
      try reflexivity. intros; discriminate.
Qed.

Lemma run_main_failure (a : args) (st : state R) (e : exn) :
  run_main fw a = (st, inl e) ->
  files st = ∅ /\
  ((exists msg, e = AssertionError msg) \/
   (e = TypeError "object of type 'NoneType' has no len()" /\
    print_vanilla_alignment a = true /\ source_dictionary fw = None) \/
   (print_vanilla_alignment a = true /\ decoding_path a <> None /\
    (e = IndexError \/ exists k, e = KeyError k))).
Proof.
  intros H.
  destruct (startup_checks_pass a) eqn:Hc.
  2: { destruct (main_checks_fail fw a Hc) as [msg Hm]. rewrite Hm in H.
       injection H as <- <-. split; [reflexivity | eauto]. }
  destruct (decide (print_vanilla_alignment a = true /\ source_dictionary fw = None)) as [[Hv Hsd]|Hn].
  { rewrite (main_no_source_dictionary fw a Hc Hv Hsd) in H. injection H as <- <-.
    split; [reflexivity | right; left; auto]. }
  destruct (main_setup_any a Hc) as (st0 & Htr & Hf & Hb & Hloc & Hrun);
    [intros Hv Hsd; apply Hn; split; [exact Hv | destruct (source_dictionary fw); [congruence | done]]|].
  rewrite Hrun, bind_run in H.
  assert (Hkf := keeps_files_batch_loop fw (fill_defaults a) (cuda_available fw && negb (cpu a))
                   (batches fw) st0).
  destruct (batch_loop fw (fill_defaults a) (cuda_available fw && negb (cpu a)) (batches fw) st0)
    as [st1 [e'|[]]] eqn:E.
  - injection H as <- <-. simpl in Hkf. split; [congruence|].
    right; right.
    destruct (print_vanilla_alignment a) eqn:Hv; [destruct (decoding_path a) as [dp|] eqn:Hd|].
    + destruct (Hloc eq_refl) as [Hs Ht].
      destruct (src_punc_tokens st0) as [sp|] eqn:Es; [|congruence].
      destruct (tgt_punc_tokens st0) as [tp|] eqn:Et; [|congruence].
      rewrite bool_decide_true in Hb by done.
      assert (Hv' : print_vanilla_alignment (fill_defaults a) = true) by fd_tac.
      assert (Hd' : decoding_path (fill_defaults a) <> None) by fd_tac.
      destruct (batch_loop_vanilla fw (fill_defaults a) (cuda_available fw && negb (cpu a)) (batches fw) st0 _ sp tp Hv' Hd' Es Et Hb)
        as [_ Hexn].
      split; [done | split; [congruence | exact (Hexn _ _ E)]].
    + rewrite batch_loop_skip in E; [discriminate | right; fd_tac | intros _; apply Hloc; reflexivity].
    + assert (Hv' : print_vanilla_alignment (fill_defaults a) = false) by fd_tac.
      rewrite batch_loop_skip in E; [discriminate | left; exact Hv' | congruence].
  - exfalso.
    destruct (finish_run fw (fill_defaults a) st1) as (st2 & E2 & _); [|congruence].
    intros Hv' Hd'.
    assert (Hv : print_vanilla_alignment a = true)
      by (assert (print_vanilla_alignment (fill_defaults a) = print_vanilla_alignment a)
            by fd_tac; congruence).
    assert (Hd : decoding_path a <> None)
      by (assert (decoding_path (fill_defaults a) = decoding_path a) by fd_tac; congruence).
    destruct (Hloc Hv) as [Hs Ht].
    destruct (src_punc_tokens st0) as [sp|] eqn:Es; [|congruence].
    destruct (tgt_punc_tokens st0) as [tp|] eqn:Et; [|congruence].
    rewrite bool_decide_true in Hb by (destruct (decoding_path a); [done | congruence]).
    destruct (batch_loop_run fw (fill_defaults a) (cuda_available fw && negb (cpu a)) (batches fw) st0 st1 _ sp tp Hv' Hd' Es Et Hb E)
      as (b' & Hb' & _). congruence.
Qed.

End RunExtras.


Section RunTheorems.
Context {R : Type} (fw : framework R).



(** X6: A run of [main] that raises has written no file. *)
Theorem failed_run_leaves_no_file (a : args) (st : state R) (e : exn) :
  run_main fw a = (st, inl e) -> files st = ∅.
Proof. intros H. exact (proj1 (run_main_failure fw a st e H)). Qed.

(** X7: A successful run of [main] records the startup events, then per batch
    the device transfer (when CUDA is used) and the extraction (for a batch
    with model input, with vanilla alignment on), then the end time, then the
    file opening and the final message when the output is written. *)
Theorem run_main_trace (a : args) (st : state R) :
  run_main fw a = (st, inr tt) ->
  trace st =
    startup_events a ++
    flat_map (batch_events a (cuda_available fw && negb (cpu a))) (batches fw) ++
    EvPrintEndTime ::
    (if bool_decide (is_Some (decoding_path a)) && print_vanilla_alignment a
     then [EvOpenWrite (os_path_join (default ""%string (decoding_path a)) (align_file_name a));
           EvPrintFinished]
     else []).
Proof.
  intros H.
  destruct (startup_checks_pass a) eqn:Hc.
  2: { destruct (main_checks_fail fw a Hc) as [msg Hm]. congruence. }
  destruct (main_setup_any fw a Hc) as (st0 & Htr & _ & _ & _ & Hrun).
  { intros Hv Hsd. destruct (source_dictionary fw) eqn:Esd; [done|].
    rewrite (main_no_source_dictionary fw a Hc Hv Esd) in H. discriminate. }
  rewrite Hrun in H.
  assert (Hemit : appends_on_success (R:=R) (emit EvPrintEndTime) [EvPrintEndTime])
    by (intros ? ? ? He; now injection He as <- _).
  assert (Haos := aos_bind _ _ _ _ (aos_batch_loop fw (fill_defaults a) (cuda_available fw && negb (cpu a))
                                     (batches fw))
                    (fun _ => aos_bind _ _ _ _ Hemit (fun _ => aos_write_output fw (fill_defaults a)))).
  rewrite (Haos _ _ _ H), Htr, batch_events_fill_defaults, align_file_name_fill_defaults.
  assert (decoding_path (fill_defaults a) = decoding_path a) as -> by fd_tac.
  assert (print_vanilla_alignment (fill_defaults a) = print_vanilla_alignment a) as -> by fd_tac.
  reflexivity.
Qed.

End RunTheorems.


Lemma filter_seq_sorted (f : nat -> bool) (start len : nat) :
  StronglySorted lt (List.filter f (List.seq start len)) /\
  Forall (fun w => start <= w < start + len)%nat (List.filter f (List.seq start len)).
Proof.
  revert start. induction len as [|len IH]; intros start; [split; constructor|].
  cbn [List.seq List.filter]. destruct (IH (S start)) as [Hs Hr].
  assert (Hr' : Forall (fun w => start <= w < start + S len)%nat (List.filter f (List.seq (S start) len)))
    by (eapply Forall_impl; [exact Hr|]; intros w Hw; simpl in Hw; lia).
  destruct (f start).
  - split.
    + constructor; [exact Hs|]. eapply Forall_impl; [exact Hr|]. intros w Hw. simpl in Hw. lia.
    + constructor; [lia | exact Hr'].
  - split; [exact Hs | exact Hr'].
Qed.

(** X11: The punctuation token ids are strictly increasing and all below the
    dictionary's length. *)
Theorem punc_tokens_sorted_in_range (d : dictionary) (punc : string) :
  StronglySorted lt (punc_tokens_of d punc) /\
  Forall (fun w => w < length d)%nat (punc_tokens_of d punc).
Proof.
  unfold punc_tokens_of. destruct (filter_seq_sorted (fun w => py_str_in (dict_get d w) punc) 0 (length d))
    as [Hs Hr].
  split; [exact Hs|]. eapply Forall_impl; [exact Hr|]. intros w Hw. simpl in Hw. lia.
Qed.

(** X10: [os.path.join] edge cases of the output path: an absolute gen_subset
    discards the decoding path, a decoding path ending in a slash gets no
    second one, and an empty decoding path gives the bare file name. *)
Theorem output_path_edges (a : args) (dp : string) :
  (starts_with_slash (gen_subset a) = true ->
     os_path_join dp (align_file_name a) = align_file_name a) /\
  (starts_with_slash (gen_subset a) = false -> ends_with_slash dp = true ->
     os_path_join dp (align_file_name a) = (dp ++ align_file_name a)%string) /\
  (starts_with_slash (gen_subset a) = false ->
     os_path_join "" (align_file_name a) = align_file_name a).
Proof.
  split; [|split].
  - intros Hs. unfold os_path_join.
    replace (starts_with_slash (align_file_name a)) with true; [reflexivity|].
    unfold align_file_name. rewrite starts_with_slash_app; [done|].
    intros He. rewrite He in Hs. discriminate.
  - intros Hs He. unfold os_path_join. rewrite align_file_name_no_slash, He, orb_true_r by done.
    reflexivity.
  - intros Hs. unfold os_path_join. rewrite align_file_name_no_slash by done. reflexivity.
Qed.

Lemma count_newlines_app (s t : string) :
  count_newlines (s ++ t) = (count_newlines s + count_newlines t)%nat.
Proof.
  induction s as [|c s IH]; [reflexivity|].
  change (String c s ++ t)%string with (String c (s ++ t)). simpl. rewrite IH. lia.
Qed.

Lemma count_newlines_lines_of {R} (str : R -> string) (l : list R) :
  (forall r, count_newlines (str r) = 0%nat) -> count_newlines (lines_of str l) = length l.
Proof.
  intros H. induction l as [|r l IH]; [reflexivity|].
  unfold lines_of in *. cbn [fold_right length].
  rewrite !count_newlines_app, H, IH. reflexivity.
Qed.

Section OutputExtras.
Context {R : Type} (fw : framework R).


(** X9: When no result's [str] holds a newline, the output file has exactly one
    line per buffered result. *)
Theorem output_line_count (a : args) (dp : string) (st : state R) (b : buffer R) :
  print_vanilla_alignment a = true -> decoding_path a = Some dp -> align_sents st = Some b ->
  (forall r, count_newlines (py_str fw r) = 0%nat) ->
  exists c, files (fst (write_output fw a st)) !! os_path_join dp (align_file_name a) = Some c /\
    count_newlines c =
      length (flat_map (fun k => slot b (Z.of_nat k)) (List.seq 0 (Z.to_nat (buf_len b)))).
Proof.
  intros Hv Hd Hb Hn. rewrite (write_output_vanilla fw a dp st b Hv Hd Hb). cbn [fst files].
  eexists. split; [apply lookup_insert_eq|]. now apply count_newlines_lines_of.
Qed.

Lemma in_range_keeps {A} (m : PyM R A) : keeps align_sents m -> preserves buffer_in_range m.
Proof.
  apply preserves_keeps. intros st st' Heq H b Hb. apply H. congruence.
Qed.

Lemma in_range_buffer_ids (a : args) (al : option (Z -> option R)) (ids : list Z) :
  preserves buffer_in_range (buffer_ids a al ids).
Proof.
  induction ids as [|sample_id rest IH]; [intros st H; exact H|]. intros st Hst.
  destruct (print_vanilla_alignment a) eqn:Hv.
  2: { rewrite buffer_ids_skip by auto. exact Hst. }
  destruct (decoding_path a) as [dp|] eqn:Hd.
  2: { rewrite buffer_ids_skip by auto. exact Hst. }
  destruct (align_sents st) as [b|] eqn:Hb.
  2: { rewrite buffer_ids_unbound by (done || congruence). exact Hst. }
  rewrite (buffer_ids_cons a al sample_id rest st b Hv ltac:(congruence) Hb).
  destruct (buffer_append b sample_id al) as [e|b'] eqn:Eb; [exact Hst|].
  apply IH. intros b'' Hb''. injection Hb'' as <-.
  destruct (Hst b Hb) as [Hl Hk]. destruct (buffer_append_slots b b' sample_id al Eb) as [Hl' Hk'].
  split; [congruence|]. intros i l Hi.
  destruct (Hk' i l Hi) as [H1|H1]; [exact (Hk i l H1) | rewrite Hl in H1; exact H1].
Qed.

Lemma in_range_batch_loop (a : args) (uc : bool) (bs : list sample) :
  preserves buffer_in_range (batch_loop fw a uc bs).
Proof.
  induction bs as [|s rest IH]; cbn [batch_loop]; [intros st H; exact H|].
  apply preserves_bind; [|intros; exact IH].
  unfold process_batch. apply preserves_bind.
  - apply in_range_keeps. destruct uc; intros st; reflexivity.
  - intros _. destruct (negb (has_net_input s)); [apply in_range_keeps; intros st; reflexivity|].
    apply preserves_bind; [apply in_range_keeps; unfold extract; frame_tac|].
    intros al. apply in_range_buffer_ids.
Qed.

Lemma keeps_align_write_sents p sents : keeps align_sents (write_sents fw p sents).
Proof. induction sents; cbn [write_sents]; frame_tac. Qed.

Lemma keeps_align_write_slots p b i n : keeps align_sents (write_slots fw p b i n).
Proof.
  revert i; induction n; intros i; cbn [write_slots]; [frame_tac|].
  apply keeps_bind; [case_match; [frame_tac | apply keeps_align_write_sents] | intros; apply IHn].
Qed.

Lemma in_range_main (a : args) : preserves buffer_in_range (main fw a).
Proof.
  unfold main. cbv zeta.
  repeat (apply preserves_bind; [|intros ?]).
  all: try (apply in_range_keeps; solve [frame_tac]).
  all: match goal with
       | |- preserves _ (batch_loop _ _ _ _) => apply in_range_batch_loop
       | |- preserves _ (write_output _ _) =>
           apply in_range_keeps; unfold write_output; frame_tac; apply keeps_align_write_slots
       | |- _ => idtac
       end.
  case_match; [|apply in_range_keeps; frame_tac].
  intros st _ b Hb. injection Hb as <-. split; [reflexivity|].
  intros i l Hi. cbn [buf_slots] in Hi. rewrite lookup_empty in Hi. discriminate.
Qed.

(** X12: At the end of [main], the buffer, when bound, still has 4000000 slots
    and holds no entry outside them, whatever the ids. *)
Theorem buffer_stays_in_range (a : args) (b : buffer R) :
  align_sents (fst (run_main fw a)) = Some b ->
  buf_len b = align_cap /\ forall i l, buf_slots b !! i = Some l -> 0 <= i < align_cap.
Proof.
  intros Hb. apply (in_range_main a init_state); [|exact Hb].
  intros b' Hb'. discriminate.
Qed.

End OutputExtras.

(** ** Witnesses and counterexamples on the sample inputs *)

Lemma no_output_without_flags_witness :
  print_vanilla_alignment (ex_args false (Some "out") true) = false /\
  files (fst (run_main (ex_fw false ex_batches) (ex_args false (Some "out") true))) = ∅ /\
  decoding_path (ex_args true None true) = None /\
  files (fst (run_main (ex_fw false ex_batches) (ex_args true None true))) = ∅.
Proof.
  split; [reflexivity|]. split.
  - apply (proj1 (proj1 (no_output_without_flags (ex_fw false ex_batches)
                           (ex_args false (Some "out") true)) eq_refl)).
  - split; [reflexivity|].
    apply (proj2 (no_output_without_flags (ex_fw false ex_batches) (ex_args true None true)) eq_refl).
Defined.

Lemma punc_locals_without_alignment_witness :
  print_vanilla_alignment (ex_args false None false) = false /\
  tgt_punc_tokens (fst (run_main (ex_fw false ex_batches) (ex_args false None false))) = None.
Proof.
  split; [reflexivity|].
  apply (proj2 (punc_locals_without_alignment (ex_fw false ex_batches)
                  (ex_args false None false) init_state eq_refl)).
Defined.

(** C7 (counterexample): a run whose only batch is a sentinel, with CUDA
    available and [--cpu] off, moves that batch to the device once. *)
Lemma sentinel_batch_moved_to_cuda :
  List.filter is_move_to_cuda
    (trace (fst (run_main (ex_fw true [mk_sample false []]) (ex_args true None true))))
  = [EvMoveToCuda].
Proof. vm_compute. reflexivity. Qed.

Lemma sentinel_batch_skipped_witness :
  has_net_input (mk_sample false []) = false /\
  process_batch (ex_fw true ex_batches) (ex_args true (Some "out") true) true
                (mk_sample false []) init_state
  = (mk_state [EvMoveToCuda] ∅ None None None, inr tt).
Proof.
  split; [reflexivity|].
  apply (sentinel_batch_skipped (ex_fw true ex_batches) (ex_args true (Some "out") true)
           true (mk_sample false []) init_state eq_refl).
Defined.

Lemma default_token_budget_witness :
  max_tokens (ex_args true None false) = None /\
  max_sentences (ex_args true None false) = None /\
  max_tokens (fill_defaults (ex_args true None false)) = Some 12000.
Proof.
  split; [reflexivity|]. split; [reflexivity|].
  apply (proj1 (default_token_budget (ex_fw false ex_batches) (ex_args true None false))
           eq_refl eq_refl).
Defined.

Lemma buffer_append_bounds_witness :
  buf_len (mk_buffer (R:=string) align_cap ∅) = align_cap /\
  (0 <= 5 < align_cap /\ ex_extract (mk_sample true [5]) None 2 None "vanilla" 5 = Some "A"%string /\
   buffer_append (mk_buffer align_cap ∅) 5
     (Some (ex_extract (mk_sample true [5]) None 2 None "vanilla"))
   = inr (mk_buffer align_cap
            (<[5 := slot (mk_buffer (R:=string) align_cap ∅) 5 ++ ["A"%string]]> ∅))) /\
  (align_cap <= 4000000 /\
   buffer_append (mk_buffer align_cap ∅) 4000000
     (Some (ex_extract (mk_sample true [5]) None 2 None "vanilla")) = inl IndexError).
Proof.
  split; [reflexivity|]. split.
  - split; [unfold align_cap; lia|]. split; [reflexivity|].
    apply (proj1 (buffer_append_bounds (mk_buffer align_cap ∅) 5
                    (ex_extract (mk_sample true [5]) None 2 None "vanilla") eq_refl)
             ltac:(unfold align_cap; lia) "A"%string eq_refl).
  - split; [unfold align_cap; lia|].
    apply (proj1 (proj2 (buffer_append_bounds (mk_buffer align_cap ∅) 4000000
                           (ex_extract (mk_sample true [5]) None 2 None "vanilla") eq_refl)
                    ltac:(unfold align_cap; lia))).
Defined.

Lemma one_strategy_per_batch_witness :
  print_vanilla_alignment (ex_args true None false) = true /\
  src_punc_tokens (mk_state (R:=string) [] ∅ (Some (Some [1%nat])) (Some (Some [])) None) <> None /\
  tgt_punc_tokens (mk_state (R:=string) [] ∅ (Some (Some [1%nat])) (Some (Some [])) None) <> None /\
  extract_events (trace (fst (process_batch (ex_fw false ex_batches) (ex_args true None false) false
                               (mk_sample true [])
                               (mk_state [] ∅ (Some (Some [1%nat])) (Some (Some [])) None))))
  = [false].
Proof.
  split; [reflexivity|]. split; [discriminate|]. split; [discriminate|].
  apply (proj1 (one_strategy_per_batch (ex_fw false ex_batches) (ex_args true None false) false
                  (mk_sample true []) (mk_state [] ∅ (Some (Some [1%nat])) (Some (Some [])) None)
                  eq_refl ltac:(discriminate) ltac:(discriminate))).
Defined.

Lemma output_file_layout_witness :
  print_vanilla_alignment (ex_args true (Some "out") true) = true /\
  decoding_path (ex_args true (Some "out") true) = Some "out"%string /\
  run_main (ex_fw false ex_batches) (ex_args true (Some "out") true) = (fst ex_run, inr tt) /\
  exists sd b,
    source_dictionary (ex_fw false ex_batches) = Some sd /\
    align_sents (fst ex_run) = Some b /\ buf_len b = align_cap /\
    (forall i, slot b i =
       appended (ex_fw false ex_batches) (ex_args true (Some "out") true)
         (Some (punc_tokens_of sd punctuation))
         (Some (punc_tokens_of (target_dictionary (ex_fw false ex_batches)) punctuation))
         align_cap i (batches (ex_fw false ex_batches))) /\
    files (fst ex_run) =
      {[ os_path_join "out" (align_file_name (ex_args true (Some "out") true)) :=
           lines_of (py_str (ex_fw false ex_batches))
             (flat_map (fun k => slot b (Z.of_nat k)) (List.seq 0 (Z.to_nat align_cap))) ]} /\
    ("out"%string <> ""%string -> ends_with_slash "out" = false ->
     starts_with_slash (gen_subset (ex_args true (Some "out") true)) = false ->
     os_path_join "out" (align_file_name (ex_args true (Some "out") true)) =
       ("out" ++ "/" ++ align_file_name (ex_args true (Some "out") true))%string).
Proof.
  split; [reflexivity|]. split; [reflexivity|].
  assert (Hrun : run_main (ex_fw false ex_batches) (ex_args true (Some "out") true)
                 = (fst ex_run, inr tt)) by (vm_compute; reflexivity).
  split; [exact Hrun|].
  exact (output_file_layout (ex_fw false ex_batches) (ex_args true (Some "out") true)
           "out" (fst ex_run) eq_refl eq_refl Hrun).
Defined.

(** The scenario's output file: id 2 first, then the two results of id 5
    in append order. *)
Example ex_run_output :
  files (fst ex_run) =
    {[ "out/test.de2en.align"%string :=
         ("B" ++ newline ++ "A" ++ newline ++ "C" ++ newline)%string ]}.
Proof. vm_compute. reflexivity. Qed.

(** ** Witnesses of the properties beyond the claims *)

Lemma buffer_append_negative_id_witness :
  buf_len (mk_buffer (R:=string) align_cap ∅) = align_cap /\
  - align_cap <= -1 < 0 /\
  (fun _ : Z => Some "A"%string) (-1) = Some "A"%string /\
  buffer_append (mk_buffer align_cap ∅) (-1) (Some (fun _ : Z => Some "A"%string)) =
    inr (mk_buffer align_cap
           (<[-1 + align_cap := slot (mk_buffer (R:=string) align_cap ∅) (-1 + align_cap)
                                 ++ ["A"%string]]> ∅)).
Proof.
  split; [reflexivity|]. split; [unfold align_cap; lia|]. split; [reflexivity|].
  apply (buffer_append_negative_id (mk_buffer align_cap ∅) (-1) (fun _ : Z => Some "A"%string)
           "A"%string eq_refl ltac:(unfold align_cap; lia) eq_refl).
Defined.

Lemma buffer_ids_failure_keeps_earlier_witness :
  ids_ok align_cap (ex_extract (mk_sample true [2; 5]) None 2 None "vanilla") [2] = true /\
  ids_ok align_cap (ex_extract (mk_sample true [2; 5]) None 2 None "vanilla") [7] = false /\
  exists e b',
    buffer_ids (ex_args true (Some "out") true)
      (Some (ex_extract (mk_sample true [2; 5]) None 2 None "vanilla")) ([2] ++ 7 :: [5])
      (mk_state [] ∅ None None (Some (mk_buffer align_cap ∅))) =
      (mk_state [] ∅ None None (Some b'), inl e) /\
    (e = IndexError \/ e = KeyError 7) /\
    buf_len b' = align_cap /\
    forall i, slot b' i = slot (mk_buffer (R:=string) align_cap ∅) i ++
                hits align_cap i (ex_extract (mk_sample true [2; 5]) None 2 None "vanilla") [2].
Proof.
  split; [vm_compute; reflexivity|]. split; [vm_compute; reflexivity|].
  exact (buffer_ids_failure_keeps_earlier (ex_args true (Some "out") true)
           (ex_extract (mk_sample true [2; 5]) None 2 None "vanilla") [2] 7 [5]
           (mk_state [] ∅ None None (Some (mk_buffer align_cap ∅))) (mk_buffer align_cap ∅)
           eq_refl ltac:(discriminate) eq_refl ltac:(vm_compute; reflexivity)
           ltac:(vm_compute; reflexivity)).
Defined.

Lemma buffer_ids_succeeds_iff_witness :
  ids_ok align_cap (ex_extract (mk_sample true [2; 5]) None 2 None "vanilla") [2; 5] = true /\
  exists st', buffer_ids (ex_args true (Some "out") true)
                (Some (ex_extract (mk_sample true [2; 5]) None 2 None "vanilla")) [2; 5]
                (mk_state [] ∅ None None (Some (mk_buffer align_cap ∅))) = (st', inr tt).
Proof.
  split; [vm_compute; reflexivity|].
  apply (proj2 (buffer_ids_succeeds_iff (ex_args true (Some "out") true)
                  (ex_extract (mk_sample true [2; 5]) None 2 None "vanilla") [2; 5]
                  (mk_state [] ∅ None None (Some (mk_buffer align_cap ∅)))
                  (mk_buffer align_cap ∅) eq_refl ltac:(discriminate) eq_refl)).
  vm_compute. reflexivity.
Defined.



Lemma failed_run_leaves_no_file_witness :
  run_main (ex_fw false [mk_sample true [7]]) (ex_args true (Some "out") true) =
    (fst (run_main (ex_fw false [mk_sample true [7]]) (ex_args true (Some "out") true)),
     inl (KeyError 7)) /\
  files (fst (run_main (ex_fw false [mk_sample true [7]]) (ex_args true (Some "out") true))) = ∅.
Proof.
  assert (H : run_main (ex_fw false [mk_sample true [7]]) (ex_args true (Some "out") true) =
    (fst (run_main (ex_fw false [mk_sample true [7]]) (ex_args true (Some "out") true)),
     inl (KeyError 7))) by (vm_compute; reflexivity).
  split; [exact H|].
  exact (failed_run_leaves_no_file (ex_fw false [mk_sample true [7]])
           (ex_args true (Some "out") true) _ _ H).
Defined.

Lemma run_main_trace_witness :
  run_main (ex_fw true ex_batches) (ex_args true (Some "out") true) =
    (fst (run_main (ex_fw true ex_batches) (ex_args true (Some "out") true)), inr tt) /\
  trace (fst (run_main (ex_fw true ex_batches) (ex_args true (Some "out") true))) =
    startup_events (ex_args true (Some "out") true) ++
    flat_map (batch_events (ex_args true (Some "out") true) true) ex_batches ++
    EvPrintEndTime ::
    [EvOpenWrite (os_path_join "out" (align_file_name (ex_args true (Some "out") true)));
     EvPrintFinished].
Proof.
  assert (H : run_main (ex_fw true ex_batches) (ex_args true (Some "out") true) =
    (fst (run_main (ex_fw true ex_batches) (ex_args true (Some "out") true)), inr tt))
    by (vm_compute; reflexivity).
  split; [exact H|].
  exact (run_main_trace (ex_fw true ex_batches) (ex_args true (Some "out") true) _ H).
Defined.


Lemma output_line_count_witness :
  print_vanilla_alignment (ex_args true (Some "out") true) = true /\
  decoding_path (ex_args true (Some "out") true) = Some "out"%string /\
  align_sents (mk_state [] ∅ None None (Some (mk_buffer align_cap {[ 2 := [10; 20] ]}))) =
    Some (mk_buffer align_cap {[ 2 := [10; 20] ]}) /\
  (forall r : Z, count_newlines ((fun _ : Z => "r"%string) r) = 0%nat) /\
  exists c,
    files (fst (write_output
                  (mk_framework false None [] [] (fun _ _ _ _ _ _ => None) (fun _ _ _ _ _ _ => None)
                     (fun _ : Z => "r"%string))
                  (ex_args true (Some "out") true)
                  (mk_state [] ∅ None None (Some (mk_buffer align_cap {[ 2 := [10; 20] ]})))))
      !! os_path_join "out" (align_file_name (ex_args true (Some "out") true)) = Some c /\
    count_newlines c =
      length (flat_map (fun k => slot (mk_buffer align_cap {[ 2 := [10; 20] ]}) (Z.of_nat k))
                (List.seq 0 (Z.to_nat (buf_len (mk_buffer align_cap {[ 2 := [10; 20] ]}))))).
Proof.
  split; [reflexivity|]. split; [reflexivity|]. split; [reflexivity|].
  split; [intros; reflexivity|].
  exact (output_line_count
           (mk_framework false None [] [] (fun _ _ _ _ _ _ => None) (fun _ _ _ _ _ _ => None)
              (fun _ : Z => "r"%string))
           (ex_args true (Some "out") true) "out"
           (mk_state [] ∅ None None (Some (mk_buffer align_cap {[ 2 := [10; 20] ]})))
           (mk_buffer align_cap {[ 2 := [10; 20] ]}) eq_refl eq_refl eq_refl
           (fun _ => eq_refl)).
Defined.

Lemma output_path_edges_witness :
  starts_with_slash (gen_subset (mk_args (Some "checkpoint.pt") false 1 5 None false None None
     false "/data/test" (Some "de") (Some "en") true (Some "out") "vanilla" 2 true)) = true /\
  os_path_join "out" (align_file_name (mk_args (Some "checkpoint.pt") false 1 5 None false None None
     false "/data/test" (Some "de") (Some "en") true (Some "out") "vanilla" 2 true)) =
    align_file_name (mk_args (Some "checkpoint.pt") false 1 5 None false None None
     false "/data/test" (Some "de") (Some "en") true (Some "out") "vanilla" 2 true) /\
  starts_with_slash (gen_subset (ex_args true (Some "out/") true)) = false /\
  ends_with_slash "out/" = true /\
  os_path_join "out/" (align_file_name (ex_args true (Some "out/") true)) =
    ("out/" ++ align_file_name (ex_args true (Some "out/") true))%string /\
  os_path_join "" (align_file_name (ex_args true (Some "out/") true)) =
    align_file_name (ex_args true (Some "out/") true).
Proof.
  split; [reflexivity|]. split.
  { exact (proj1 (output_path_edges (mk_args (Some "checkpoint.pt") false 1 5 None false None None
     false "/data/test" (Some "de") (Some "en") true (Some "out") "vanilla" 2 true) "out") eq_refl). }
  split; [reflexivity|]. split; [reflexivity|]. split.
  - exact (proj1 (proj2 (output_path_edges (ex_args true (Some "out/") true) "out/"))
             eq_refl eq_refl).
  - exact (proj2 (proj2 (output_path_edges (ex_args true (Some "out/") true) "out/")) eq_refl).
Defined.

Lemma buffer_stays_in_range_witness :
  align_sents (fst (run_main (ex_fw false ex_batches) (ex_args true (Some "out") true))) =
    Some (mk_buffer align_cap (<[5 := ["A"; "C"]%string]> {[ 2 := ["B"%string] ]})) /\
  buf_len (mk_buffer (R:=string) align_cap (<[5 := ["A"; "C"]%string]> {[ 2 := ["B"%string] ]}))
    = align_cap /\
  forall i l, buf_slots (mk_buffer align_cap (<[5 := ["A"; "C"]%string]> {[ 2 := ["B"%string] ]}))
                !! i = Some l -> 0 <= i < align_cap.
Proof.
  assert (H : align_sents (fst (run_main (ex_fw false ex_batches) (ex_args true (Some "out") true))) =
    Some (mk_buffer align_cap (<[5 := ["A"; "C"]%string]> {[ 2 := ["B"%string] ]})))
    by (vm_compute; reflexivity).
  split; [exact H|].
  exact (buffer_stays_in_range (ex_fw false ex_batches) (ex_args true (Some "out") true) _ H).
Defined.
